(** * The Axcelerate API client of the FIA MCP server

    A shallow embedding of [src/services/axcelerate.py] and of the
    dispatch of [src/main.py]: Python objects as an inductive type,
    exceptions as an error monad, the remote API as a function from the
    outgoing request to what [requests] gets back.  What the handlers
    print or log is left out. *)

From Stdlib Require Import ZArith QArith List String Ascii DecimalString Bool Lia.
Import ListNotations.

Set Warnings "-register-all".

Local Open Scope string_scope.
Local Open Scope list_scope.
Local Open Scope Z_scope.

(** ** Python objects

    The objects [json.loads] builds, which are also the objects the
    client returns.  A [dict] is an association list in insertion order;
    a key is looked up from the left.  A [float] is kept as the exact
    rational it denotes, or as one of the non-finite values that
    [json.loads] accepts.  A [str] is a sequence of code points below
    256. *)

Inductive pyfloat : Type :=
| FFinite (q : Q)
| FNan
| FInf (negative : bool).

Inductive value : Type :=
| VNone
| VBool (b : bool)
| VInt (n : Z)
| VFloat (f : pyfloat)
| VStr (s : string)
| VList (l : list value)
| VDict (d : list (string * value)).

(** [type(v).__name__] *)
Definition type_name (v : value) : string :=
  match v with
  | VNone => "NoneType"
  | VBool _ => "bool"
  | VInt _ => "int"
  | VFloat _ => "float"
  | VStr _ => "str"
  | VList _ => "list"
  | VDict _ => "dict"
  end.

Definition isinstance_dict (v : value) : bool :=
  match v with VDict _ => true | _ => false end.

Definition isinstance_list (v : value) : bool :=
  match v with VList _ => true | _ => false end.

Definition is_None (v : value) : bool :=
  match v with VNone => true | _ => false end.

(** ** Exceptions

    The first four classes derive from [requests.RequestException]
    ([JSONDecodeError] is the one [Response.json] raises); the others
    are the builtin errors that the code of the client can run into. *)

Inductive exn_class : Type :=
| ConnectionError
| Timeout
| HTTPError
| JSONDecodeError
| TypeError
| AttributeError
| ValueError
| OverflowError.

Record exn : Type := Exn { exn_cls : exn_class; exn_str : string }.

Definition is_RequestException (e : exn) : bool :=
  match exn_cls e with
  | ConnectionError | Timeout | HTTPError | JSONDecodeError => true
  | TypeError | AttributeError | ValueError | OverflowError => false
  end.

(** Every class above derives from [Exception]. *)
Definition is_Exception (e : exn) : bool := true.

Inductive outcome (A : Type) : Type :=
| Return (a : A)
| Raise (e : exn).

Arguments Return {A} a.
Arguments Raise {A} e.

Definition bind {A B : Type} (c : outcome A) (k : A -> outcome B) : outcome B :=
  match c with
  | Return a => k a
  | Raise e => Raise e
  end.

Notation "x <- c ;; k" := (bind c (fun x => k))
  (at level 61, c at next level, right associativity).
Notation "c ;;; k" := (bind c (fun _ => k))
  (at level 61, right associativity).

(** [try: body / except <classes> as e: handler e] *)
Definition try_except {A : Type} (body : outcome A) (catches : exn -> bool)
    (handler : exn -> outcome A) : outcome A :=
  match body with
  | Return a => Return a
  | Raise e => if catches e then handler e else Raise e
  end.

(** [for x in items: s = body x s], leaving at the first exception *)
Fixpoint for_each {S : Type} (items : list value)
    (body : value -> S -> outcome S) (s : S) : outcome S :=
  match items with
  | [] => Return s
  | x :: rest => s' <- body x s ;; for_each rest body s'
  end.

(** ** Builtins *)

Fixpoint chars (s : string) : list string :=
  match s with
  | EmptyString => []
  | String c rest => String c EmptyString :: chars rest
  end.

(** [iter(v)]: the elements of a list, the keys of a dict, the characters
    of a string. *)
Definition py_iter (v : value) : outcome (list value) :=
  match v with
  | VList l => Return l
  | VDict d => Return (map (fun kv => VStr (fst kv)) d)
  | VStr s => Return (map VStr (chars s))
  | _ => Raise (Exn TypeError ("'" ++ type_name v ++ "' object is not iterable"))
  end.

Fixpoint dict_lookup (d : list (string * value)) (k : string) : option value :=
  match d with
  | [] => None
  | (k', v) :: rest => if String.eqb k' k then Some v else dict_lookup rest k
  end.

(** [v.get(k, default)] *)
Definition py_get (v : value) (k : string) (default : value) : outcome value :=
  match v with
  | VDict d =>
      Return (match dict_lookup d k with Some x => x | None => default end)
  | _ => Raise (Exn AttributeError
                  ("'" ++ type_name v ++ "' object has no attribute 'get'"))
  end.

(** The whitespace [int] skips around a literal: the ASCII whitespace
    and, of the other code points below 256, the two spaces 0x85 and
    0xa0.  The separators 0x1c to 0x1f, which [str.isspace] accepts,
    are not skipped. *)
Definition is_space (c : ascii) : bool :=
  let n := Z.of_nat (nat_of_ascii c) in
  ((9 <=? n) && (n <=? 13)) || (n =? 32) || (n =? 133) || (n =? 160).

Fixpoint lstrip (s : string) : string :=
  match s with
  | String c rest => if is_space c then lstrip rest else s
  | EmptyString => EmptyString
  end.

Fixpoint rstrip (s : string) : string :=
  match s with
  | EmptyString => EmptyString
  | String c rest =>
      match rstrip rest with
      | EmptyString => if is_space c then EmptyString else String c EmptyString
      | r => String c r
      end
  end.

Definition digit_of (c : ascii) : option Z :=
  let n := Z.of_nat (nat_of_ascii c) in
  if (48 <=? n) && (n <=? 57) then Some (n - 48) else None.

(** Where the scan of a literal stands: nothing read yet, after a digit,
    after an underscore. *)
Inductive scan : Type := AtStart | AfterDigit | AfterUnderscore.

(** What the scan of a literal gives: its value, a refusal, or a refusal
    because it has more digits than the interpreter converts. *)
Inductive literal : Type :=
| Literal (n : Z)
| Invalid
| TooLong (digits : nat).

(** The default of [sys.get_int_max_str_digits()]. *)
Definition max_str_digits : nat := 4300.

Definition within_limit (digits : nat) (l : literal) : literal :=
  if (max_str_digits <? digits)%nat then TooLong digits else l.

(** The scan reads digits and single underscores between them, counting
    the digits; the limit is checked where the run of digits ends, before
    what follows it is looked at. *)
Fixpoint int_digits (s : string) (st : scan) (acc : Z) (digits : nat)
    : literal :=
  match s with
  | EmptyString =>
      match st with
      | AfterDigit => within_limit digits (Literal acc)
      | _ => Invalid
      end
  | String c rest =>
      match digit_of c with
      | Some d => int_digits rest AfterDigit (10 * acc + d) (S digits)
      | None =>
          if Ascii.eqb c "_"
          then match st with
               | AfterDigit => int_digits rest AfterUnderscore acc digits
               | _ => Invalid
               end
          else match st with
               | AfterUnderscore => Invalid
               | _ => within_limit digits Invalid
               end
      end
  end.

Definition negated (l : literal) : literal :=
  match l with
  | Literal n => Literal (- n)
  | _ => l
  end.

(** [int(s)] for a string, base 10: surrounding whitespace, one sign,
    digits with single underscores between them, at most 4300 digits. *)
Definition int_of_str (s : string) : literal :=
  match rstrip (lstrip s) with
  | String "-" rest => negated (int_digits rest AtStart 0 0)
  | String "+" rest => int_digits rest AtStart 0 0
  | body => int_digits body AtStart 0 0
  end.

Fixpoint contains (c : ascii) (s : string) : bool :=
  match s with
  | EmptyString => false
  | String c' rest => Ascii.eqb c c' || contains c rest
  end.

Definition hex_digit (n : nat) : ascii :=
  nth n ["0"; "1"; "2"; "3"; "4"; "5"; "6"; "7"; "8"; "9";
         "a"; "b"; "c"; "d"; "e"; "f"]%char "0"%char.

(** One character of [repr(s)], between the quotes [quote]. *)
Definition repr_char (quote c : ascii) : string :=
  let n := nat_of_ascii c in
  if Ascii.eqb c quote || Ascii.eqb c "\"
  then String "\" (String c EmptyString)
  else if (n =? 9)%nat then "\t"
  else if (n =? 10)%nat then "\n"
  else if (n =? 13)%nat then "\r"
  else if (n <? 32)%nat || (n =? 127)%nat
          || ((128 <=? n)%nat && (n <=? 160)%nat) || (n =? 173)%nat
  then String "\" (String "x" (String (hex_digit (n / 16))
                                 (String (hex_digit (n mod 16)) EmptyString)))
  else String c EmptyString.

Fixpoint repr_chars (quote : ascii) (s : string) : string :=
  match s with
  | EmptyString => EmptyString
  | String c rest => (repr_char quote c ++ repr_chars quote rest)%string
  end.

(** [repr(s)]: in single quotes, or in double quotes when [s] has a
    single quote and no double one. *)
Definition py_repr (s : string) : string :=
  let double := ascii_of_nat 34 in
  let quote := if contains "'" s && negb (contains double s)
               then double else "'"%char in
  String quote (repr_chars quote s ++ String quote EmptyString)%string.

(** [int(v)].  The text of the [ValueError] holds at most 200 characters
    of the [repr]. *)
Definition py_int (v : value) : outcome Z :=
  match v with
  | VInt n => Return n
  | VBool b => Return (if b then 1 else 0)
  | VFloat (FFinite q) => Return (Z.quot (Qnum q) (Z.pos (Qden q)))
  | VFloat FNan => Raise (Exn ValueError "cannot convert float NaN to integer")
  | VFloat (FInf _) =>
      Raise (Exn OverflowError "cannot convert float infinity to integer")
  | VStr s =>
      match int_of_str s with
      | Literal n => Return n
      | Invalid =>
          Raise (Exn ValueError
                   ("invalid literal for int() with base 10: "
                    ++ substring 0 200 (py_repr s)))
      | TooLong digits =>
          Raise (Exn ValueError
                   ("Exceeds the limit (4300 digits) for integer string conversion: value has "
                    ++ NilZero.string_of_uint (Nat.to_uint digits)
                    ++ " digits; use sys.set_int_max_str_digits() to increase the limit"))
      end
  | _ => Raise (Exn TypeError
                  ("int() argument must be a string, a bytes-like object or a real number, not '"
                   ++ type_name v ++ "'"))
  end.

(** ** The HTTP exchange

    What the client hands to [requests] and what it gets back.  The
    remote API is a function of the outgoing request. *)

Inductive http_method : Type := GET | POST.

Record request : Type := Request {
  req_method : http_method;
  req_url : string;
  req_headers : list (string * value);
  req_params : list (string * value)
}.

(** The values one entry of [params] contributes to the query string:
    each element of a list, the value itself otherwise. *)
Definition param_values (vs : value) : list value :=
  match vs with
  | VList l => l
  | VDict d => map (fun kv => VStr (fst kv)) d
  | _ => [vs]
  end.

(** The query string [requests] builds from [params], before
    percent-encoding: an entry whose value is [None] is left out. *)
Definition encode_params (params : list (string * value))
    : list (string * value) :=
  flat_map
    (fun kv => map (pair (fst kv))
                 (filter (fun v => negb (is_None v)) (param_values (snd kv))))
    params.


(** A response that arrived: its status, the text [raise_for_status]
    puts in its [HTTPError], and the body, as the object [json()] returns
    or as the text of the [JSONDecodeError] it raises. *)
Record response : Type := Response {
  status_code : Z;
  http_error_msg : string;
  body : string + value
}.

Inductive reply : Type :=
| NoResponse (timed_out : bool) (description : string)
| Got (r : response).

Definition web : Type := request -> reply.

(** [requests.get] and [requests.post] *)
Definition requests_send (w : web) (rq : request) : outcome response :=
  match w rq with
  | NoResponse timed_out description =>
      Raise (Exn (if timed_out then Timeout else ConnectionError) description)
  | Got r => Return r
  end.

Definition raise_for_status (r : response) : outcome unit :=
  if (400 <=? status_code r) && (status_code r <? 600)
  then Raise (Exn HTTPError (http_error_msg r))
  else Return tt.

Definition response_json (r : response) : outcome value :=
  match body r with
  | inl description => Raise (Exn JSONDecodeError description)
  | inr v => Return v
  end.

(** ** The client *)

Record Axcelerate : Type := {
  base_url : option string;
  wstoken : option string;
  apitoken : option string
}.

Definition opt_str (o : option string) : value :=
  match o with Some s => VStr s | None => VNone end.

Definition opt_int (o : option Z) : value :=
  match o with Some n => VInt n | None => VNone end.

Definition opt_bool (o : option bool) : value :=
  match o with Some b => VBool b | None => VNone end.

Definition opt_ints (o : option (list Z)) : value :=
  match o with Some l => VList (map VInt l) | None => VNone end.

(** [f"{o}"] *)
Definition fstr (o : option string) : string :=
  match o with Some s => s | None => "None" end.

Definition headers (self : Axcelerate) : list (string * value) :=
  [("wstoken", opt_str (wstoken self)); ("apitoken", opt_str (apitoken self))].

(** The entries [k: e.get(src)] of a dict display, evaluated in order. *)
Fixpoint gets (fields : list (string * string)) (e : value)
    : outcome (list (string * value)) :=
  match fields with
  | [] => Return []
  | (k, src) :: rest =>
      v <- py_get e src VNone ;;
      entries <- gets rest e ;;
      Return ((k, v) :: entries)
  end.

Definition dict_of_gets (fields : list (string * string)) (e : value)
    : outcome value :=
  entries <- gets fields e ;; Return (VDict entries).

(** *** [search_users] *)

Record search_users_args : Type := {
  su_q : option string;
  su_givenName : option string;
  su_surname : option string;
  su_emailAddress : option string;
  su_contactRoleID : option Z;
  su_contactIDs : option (list Z);
  su_contactID : option Z
}.

Definition search_users_request (self : Axcelerate) (a : search_users_args)
    : request :=
  let url := (fstr (base_url self) ++ "/contacts/search/")%string in
  let params := [
    ("q", opt_str (su_q a));
    ("givenName", opt_str (su_givenName a));
    ("surname", opt_str (su_surname a));
    ("emailAddress", opt_str (su_emailAddress a));
    ("contactRoleID", opt_int (su_contactRoleID a));
    ("contactIDs", opt_ints (su_contactIDs a));
    ("contactID", opt_int (su_contactID a))
  ] in
  Request GET url (headers self) params.

Definition user_fields : list (string * string) := [
  ("contact_id", "CONTACTID");
  ("user_id", "USERID");
  ("given_name", "GIVENNAME");
  ("surname", "SURNAME");
  ("email", "EMAILADDRESS");
  ("alt_email", "EMAILADDRESSALTERNATIVE");
  ("sex", "SEX");
  ("mobile", "MOBILEPHONE");
  ("work_phone", "WORKPHONE");
  ("organisation", "ORGANISATION");
  ("position", "POSITION");
  ("active", "CONTACTACTIVE")
].

(** The body of the loop over [users]. *)
Definition search_users_step (user : value) (payload : list value)
    : outcome (list value) :=
  if negb (isinstance_dict user) then Return payload
  else
    row <- dict_of_gets user_fields user ;;
    Return (payload ++ [row]).

Definition search_users (self : Axcelerate) (w : web) (a : search_users_args)
    : outcome value :=
  try_except
    (response <- requests_send w (search_users_request self a) ;;
     raise_for_status response ;;;
     users <- response_json response ;;
     items <- py_iter users ;;
     payload <- for_each items search_users_step [] ;;
     Return (VList payload))
    is_RequestException
    (fun _ => Return (VList [])).

(** *** [get_courses] *)

Record get_courses_args : Type := {
  gc_id : option Z;
  gc_search_term : option string;
  gc_type : option string;
  gc_offset : option Z;
  gc_display_length : option Z;
  gc_sort_column : option string;
  gc_sort_direction : option string;
  gc_current : option bool;
  gc_public : option bool;
  gc_isActive : option bool
}.

Definition get_courses_request (self : Axcelerate) (a : get_courses_args)
    : request :=
  let url := (fstr (base_url self) ++ "/courses/")%string in
  let params := [
    ("id", opt_int (gc_id a));
    ("searchTerm", opt_str (gc_search_term a));
    ("type", opt_str (gc_type a));
    ("trainingArea", VStr "FIA Courses");
    ("offset", opt_int (gc_offset a));
    ("displayLength", opt_int (gc_display_length a));
    ("sortColumn", opt_str (gc_sort_column a));
    ("sortDirection", opt_str (gc_sort_direction a));
    ("current", opt_bool (gc_current a));
    ("public", opt_bool (gc_public a));
    ("isActive", opt_bool (gc_isActive a))
  ] in
  Request GET url (headers self) params.

Definition course_fields : list (string * string) := [
  ("ID", "ID");
  ("NAME", "NAME");
  ("STREAMNAME", "STREAMNAME");
  ("DIPLOMAVERSION", "DIPLOMAVERSION");
  ("CODE", "CODE");
  ("GST_TYPE", "GST_TYPE");
  ("COST", "COST");
  ("DELIVERY", "DELIVERY");
  ("DURATION", "DURATION");
  ("DURATIONTYPE", "DURATIONTYPE");
  ("ISACTIVE", "ISACTIVE");
  ("TYPE", "TYPE");
  ("SHORTDESCRIPTION", "SHORTDESCRIPTION")
].

(** The body of the loop over [courses], and of the loop over [webinars]. *)
Definition course_step (course : value) (payload : list value)
    : outcome (list value) :=
  row <- dict_of_gets course_fields course ;;
  Return (payload ++ [row]).

Definition get_courses (self : Axcelerate) (w : web) (a : get_courses_args)
    : outcome value :=
  try_except
    (response <- requests_send w (get_courses_request self a) ;;
     raise_for_status response ;;;
     courses <- response_json response ;;
     items <- py_iter courses ;;
     payload <- for_each items course_step [] ;;
     Return (VList payload))
    is_RequestException
    (fun _ => Return (VList [])).

(** *** [get_course_instance] *)

Definition get_course_instance_request (self : Axcelerate)
    (course_id : Z) (type : string) : request :=
  let url := (fstr (base_url self) ++ "/course/instances")%string in
  let params := [("ID", VInt course_id); ("type", VStr type)] in
  Request GET url (headers self) params.

Definition get_course_instance (self : Axcelerate) (w : web)
    (course_id : Z) (type : string) : outcome value :=
  try_except
    (response <- requests_send w (get_course_instance_request self course_id type) ;;
     raise_for_status response ;;;
     response_json response)
    is_RequestException
    (fun _ => Return (VList [])).

(** *** [get_recorded_webinars] *)

Definition get_recorded_webinars_request (self : Axcelerate) : request :=
  let url := (fstr (base_url self) ++ "/courses/")%string in
  let params := [("trainingArea", VStr "FIA Microlearning");
                 ("displayLength", VInt 100)] in
  Request GET url (headers self) params.

(** What stands under [try:]. *)
Definition get_recorded_webinars_try (self : Axcelerate) (w : web)
    : outcome value :=
  response <- requests_send w (get_recorded_webinars_request self) ;;
  raise_for_status response ;;;
  webinars <- response_json response ;;
  items <- py_iter webinars ;;
  payload <- for_each items course_step [] ;;
  Return (VList payload).

Definition error_marker (e : exn) : value :=
  VDict [("error", VBool true);
         ("message", VStr ("Unexpected error: " ++ exn_str e)%string)].

Definition get_recorded_webinars (self : Axcelerate) (w : web)
    : outcome value :=
  try_except
    (get_recorded_webinars_try self w)
    is_Exception
    (fun e => Return (VList [error_marker e])).

(** *** Dates

    [datetime.date] and [datetime.datetime] with their [isoformat].  The
    UTC offset of an aware [datetime] is kept in whole minutes. *)

Record date : Type := Date { year : Z; month : Z; day : Z }.

Record datetime : Type := Datetime {
  dt_date : date;
  hour : Z;
  minute : Z;
  second : Z;
  microsecond : Z;
  utcoffset : option Z
}.

Definition digit_char (n : Z) : ascii :=
  match n mod 10 with
  | 0 => "0" | 1 => "1" | 2 => "2" | 3 => "3" | 4 => "4"
  | 5 => "5" | 6 => "6" | 7 => "7" | 8 => "8" | _ => "9"
  end%char.

(** The decimal digits of [n] when it is positive, no digit otherwise. *)
Definition leading_digits (n : Z) : string :=
  match n with
  | Z.pos p => NilEmpty.string_of_uint (Pos.to_uint p)
  | _ => EmptyString
  end.

(** What [%0<width>d] prints for [0 <= n]: the digits of [n], with zeros
    in front up to [width] digits. *)
Fixpoint zero_pad (width : nat) (n : Z) : string :=
  match width with
  | O => leading_digits n
  | S w => (zero_pad w (n / 10)%Z ++ String (digit_char n) EmptyString)%string
  end.

Definition date_isoformat (d : date) : string :=
  (zero_pad 4 (year d) ++ "-" ++ zero_pad 2 (month d) ++ "-"
   ++ zero_pad 2 (day d))%string.

Definition offset_isoformat (off : option Z) : string :=
  match off with
  | None => EmptyString
  | Some m =>
      ((if (m <? 0)%Z then "-" else "+")
       ++ zero_pad 2 (Z.abs m / 60)%Z ++ ":"
       ++ zero_pad 2 (Z.abs m mod 60)%Z)%string
  end.

Definition datetime_isoformat (t : datetime) : string :=
  (date_isoformat (dt_date t) ++ "T" ++ zero_pad 2 (hour t) ++ ":"
   ++ zero_pad 2 (minute t) ++ ":" ++ zero_pad 2 (second t)
   ++ (if (microsecond t =? 0)%Z then EmptyString
       else "." ++ zero_pad 6 (microsecond t))
   ++ offset_isoformat (utcoffset t))%string.

(** [x.isoformat() if x else None]: a date is never false. *)
Definition isoformat_or_None {A : Type} (isoformat : A -> string)
    (x : option A) : value :=
  match x with
  | Some d => VStr (isoformat d)
  | None => VNone
  end.

(** *** [search_courses] *)

Record search_courses_args : Type := {
  sc_id : option Z;
  sc_instance_id : option Z;
  sc_type : option string;
  sc_training_category : option string;
  sc_location : option string;
  sc_state : option string;
  sc_code : option string;
  sc_name : option string;
  sc_search_term : option string;
  sc_enrolment_open : option bool;
  sc_startDate_min : option date;
  sc_startDate_max : option date;
  sc_finishDate_min : option date;
  sc_finishDate_max : option date;
  sc_lastUpdated_min : option datetime;
  sc_lastUpdated_max : option datetime;
  sc_offset : option Z;
  sc_display_length : option Z;
  sc_sort_column : option string;
  sc_sort_direction : option string;
  sc_public : option bool;
  sc_isActive : option bool;
  sc_status : option string
}.

Definition search_courses_request (self : Axcelerate) (a : search_courses_args)
    : request :=
  let url := (fstr (base_url self) ++ "/course/instance/search/")%string in
  let params := [
    ("id", opt_int (sc_id a));
    ("instanceID", opt_int (sc_instance_id a));
    ("type", opt_str (sc_type a));
    ("trainingCategory", opt_str (sc_training_category a));
    ("location", opt_str (sc_location a));
    ("state", opt_str (sc_state a));
    ("code", opt_str (sc_code a));
    ("name", opt_str (sc_name a));
    ("searchTerm", opt_str (sc_search_term a));
    ("enrolmentOpen", opt_bool (sc_enrolment_open a));
    ("startDate_min", isoformat_or_None date_isoformat (sc_startDate_min a));
    ("startDate_max", isoformat_or_None date_isoformat (sc_startDate_max a));
    ("finishDate_min", isoformat_or_None date_isoformat (sc_finishDate_min a));
    ("finishDate_max", isoformat_or_None date_isoformat (sc_finishDate_max a));
    ("lastUpdated_min",
     isoformat_or_None datetime_isoformat (sc_lastUpdated_min a));
    ("lastUpdated_max",
     isoformat_or_None datetime_isoformat (sc_lastUpdated_max a));
    ("offset", opt_int (sc_offset a));
    ("displayLength", opt_int (sc_display_length a));
    ("sortColumn", opt_str (sc_sort_column a));
    ("sortDirection", opt_str (sc_sort_direction a));
    ("public", opt_bool (sc_public a));
    ("isActive", opt_bool (sc_isActive a));
    ("status", opt_str (sc_status a))
  ] in
  Request POST url (headers self) params.

Definition search_courses (self : Axcelerate) (w : web) (a : search_courses_args)
    : outcome value :=
  try_except
    (response <- requests_send w (search_courses_request self a) ;;
     raise_for_status response ;;;
     data <- response_json response ;;
     if isinstance_dict data then py_get data "data" (VList [])
     else if isinstance_list data then Return data
     else Return (VList []))
    is_RequestException
    (fun _ => Return (VList [])).

(** *** [get_fia_courses] *)

Definition fia_courses_args (display_length : option Z) : search_courses_args :=
  {| sc_id := None; sc_instance_id := None;
     sc_type := Some "p";
     sc_training_category := Some "FIA Courses";
     sc_location := None; sc_state := None; sc_code := None; sc_name := None;
     sc_search_term := None; sc_enrolment_open := None;
     sc_startDate_min := None; sc_startDate_max := None;
     sc_finishDate_min := None; sc_finishDate_max := None;
     sc_lastUpdated_min := None; sc_lastUpdated_max := None;
     sc_offset := None;
     sc_display_length := display_length;
     sc_sort_column := None; sc_sort_direction := None;
     sc_public := None; sc_isActive := None; sc_status := None |}.

Definition get_fia_courses (self : Axcelerate) (w : web)
    (display_length : option Z) : outcome value :=
  search_courses self w (fia_courses_args display_length).

(** *** [get_student_enrollments] *)

Definition get_student_enrollments_request (self : Axcelerate) (contactID : Z)
    : request :=
  let url := (fstr (base_url self) ++ "/course/enrolments/")%string in
  let params := [("contactID", VInt contactID)] in
  Request GET url (headers self) params.

(** The [if isinstance(payload, list) / elif isinstance(payload, dict) /
    else] that both enrolment operations start with. *)
Definition enrolments_of (payload : value) : outcome value :=
  if isinstance_list payload then Return payload
  else if isinstance_dict payload then py_get payload "data" (VList [])
  else Return (VList []).

Definition learner_fields : list (string * string) := [
  ("instance_id", "INSTANCEID");
  ("enrol_id", "ENROLID");
  ("learner_id", "LEARNERID");
  ("contact_id", "CONTACTID");
  ("name", "NAME");
  ("code", "CODE");
  ("status", "STATUS");
  ("type", "TYPE");
  ("enrolment_date", "ENROLMENTDATE");
  ("start_date", "STARTDATE");
  ("finish_date", "FINISHDATE")
].

(** The body of a loop over [enrolments]: rows whose [key], coerced with
    [int], differs from [wanted] are passed over. *)
Definition enrolment_step (key : string) (wanted : Z)
    (fields : list (string * string)) (e : value) (kept : list value)
    : outcome (list value) :=
  raw <- py_get e key (VInt (-1)) ;;
  n <- py_int raw ;;
  if negb (n =? wanted) then Return kept
  else
    row <- dict_of_gets fields e ;;
    Return (kept ++ [row]).

Definition student_enrollments_result (courses : list value) : value :=
  VDict [("enrolled", VBool (0 <? Z.of_nat (List.length courses)));
         ("courses", VList courses)].

Definition get_student_enrollments (self : Axcelerate) (w : web) (contactID : Z)
    : outcome value :=
  try_except
    (response <- requests_send w (get_student_enrollments_request self contactID) ;;
     raise_for_status response ;;;
     payload <- response_json response ;;
     enrolments <- enrolments_of payload ;;
     items <- py_iter enrolments ;;
     courses <- for_each items
                  (enrolment_step "CONTACTID" contactID learner_fields) [] ;;
     Return (student_enrollments_result courses))
    is_RequestException
    (fun _ => Return (VDict [("enrolled", VBool false); ("courses", VList [])])).

(** *** [get_course_enrolments] *)

Definition get_course_enrolments_request (self : Axcelerate) (instanceID : Z)
    : request :=
  let url := (fstr (base_url self) ++ "/course/enrolments/")%string in
  let params := [("instanceID", VInt instanceID)] in
  Request GET url (headers self) params.

Definition student_fields : list (string * string) := [
  ("contact_id", "CONTACTID");
  ("given_name", "GIVENNAME");
  ("surname", "SURNAME");
  ("email", "EMAIL");
  ("status", "STATUS");
  ("enrolment_date", "ENROLMENTDATE");
  ("finish_date", "FINISHDATE");
  ("instance_id", "INSTANCEID");
  ("code", "CODE");
  ("enrol_id", "ENROLID");
  ("learner_id", "LEARNERID")
].

Definition get_course_enrolments (self : Axcelerate) (w : web) (instanceID : Z)
    : outcome value :=
  try_except
    (response <- requests_send w (get_course_enrolments_request self instanceID) ;;
     raise_for_status response ;;;
     payload <- response_json response ;;
     enrolments <- enrolments_of payload ;;
     items <- py_iter enrolments ;;
     students <- for_each items
                   (enrolment_step "INSTANCEID" instanceID student_fields) [] ;;
     Return (VList students))
    is_RequestException
    (fun _ => Return (VList [])).

(** ** The operations as the tool layer calls them

    One constructor per method of the client, with its arguments. *)

Inductive operation : Type :=
| SearchUsers (a : search_users_args)
| GetCourses (a : get_courses_args)
| GetCourseInstance (course_id : Z) (type : string)
| GetRecordedWebinars
| SearchCourses (a : search_courses_args)
| GetFiaCourses (display_length : option Z)
| GetStudentEnrollments (contactID : Z)
| GetCourseEnrolments (instanceID : Z).

Definition run (self : Axcelerate) (w : web) (op : operation) : outcome value :=
  match op with
  | SearchUsers a => search_users self w a
  | GetCourses a => get_courses self w a
  | GetCourseInstance course_id type => get_course_instance self w course_id type
  | GetRecordedWebinars => get_recorded_webinars self w
  | SearchCourses a => search_courses self w a
  | GetFiaCourses display_length => get_fia_courses self w display_length
  | GetStudentEnrollments contactID => get_student_enrollments self w contactID
  | GetCourseEnrolments instanceID => get_course_enrolments self w instanceID
  end.

Definition request_of (self : Axcelerate) (op : operation) : request :=
  match op with
  | SearchUsers a => search_users_request self a
  | GetCourses a => get_courses_request self a
  | GetCourseInstance course_id type =>
      get_course_instance_request self course_id type
  | GetRecordedWebinars => get_recorded_webinars_request self
  | SearchCourses a => search_courses_request self a
  | GetFiaCourses display_length =>
      search_courses_request self (fia_courses_args display_length)
  | GetStudentEnrollments contactID =>
      get_student_enrollments_request self contactID
  | GetCourseEnrolments instanceID =>
      get_course_enrolments_request self instanceID
  end.

(** What the handler of each operation returns in place of a result;
    [get_recorded_webinars] has none, it reports the error in its result. *)
Definition default_result (op : operation) : option value :=
  match op with
  | GetStudentEnrollments _ =>
      Some (VDict [("enrolled", VBool false); ("courses", VList [])])
  | GetRecordedWebinars => None
  | _ => Some (VList [])
  end.

(** ** Notions the properties are stated with *)

(** A remote API that answers every request with status 200 and the
    body [v]. *)
Definition replies_with (v : value) : web :=
  fun _ => Got (Response 200 "OK" (inr v)).

Definition example_client : Axcelerate :=
  {| base_url := Some "https://example.test/api";
     wstoken := Some "ws"; apitoken := Some "api" |}.

Definition no_user_filter : search_users_args :=
  {| su_q := None; su_givenName := None; su_surname := None;
     su_emailAddress := None; su_contactRoleID := None;
     su_contactIDs := None; su_contactID := None |}.

Definition no_course_filter : get_courses_args :=
  {| gc_id := None; gc_search_term := None; gc_type := None;
     gc_offset := None; gc_display_length := None; gc_sort_column := None;
     gc_sort_direction := None; gc_current := None; gc_public := None;
     gc_isActive := None |}.

(** A response of the enrolments path with one row of contact 5, its id
    a string, and one row of contact 6. *)
Definition two_enrolments : value :=
  VList [VDict [("CONTACTID", VStr "5"); ("NAME", VStr "Wardens")];
         VDict [("CONTACTID", VInt 6)]].


(** The three calls every operation starts with: send, check the status,
    decode the body. *)
Definition fetch (w : web) (rq : request) : outcome value :=
  response <- requests_send w rq ;;
  raise_for_status response ;;;
  response_json response.

(** The record a dict display of [.get] calls builds from the dict [d]:
    a key that [d] lacks gives [None]. *)
Definition row_of (fields : list (string * string)) (d : list (string * value))
    : value :=
  VDict (map (fun f => (fst f,
                        match dict_lookup d (snd f) with
                        | Some x => x
                        | None => VNone
                        end)) fields).

(** The records of the items that are dicts, the other items left out. *)
Definition records_of (fields : list (string * string)) (items : list value)
    : list value :=
  flat_map (fun e => match e with
                     | VDict d => [row_of fields d]
                     | _ => []
                     end) items.

(** [l1] is [l2] with some elements left out, the others in their order. *)
Inductive subseq {A : Type} : list A -> list A -> Prop :=
| subseq_nil : subseq [] []
| subseq_skip (x : A) (l1 l2 : list A) : subseq l1 l2 -> subseq l1 (x :: l2)
| subseq_keep (x : A) (l1 l2 : list A) :
    subseq l1 l2 -> subseq (x :: l1) (x :: l2).

(** The rows are the records of some of the items, one row per item kept,
    in the order of the items. *)
Definition derived_in_order (fields : list (string * string))
    (items rows : list value) : Prop :=
  exists kept,
    subseq kept items /\
    Forall2 (fun e row => dict_of_gets fields e = Return row) kept rows.

(** The test a loop over [enrolments] makes on a row. *)
Definition row_matches (key : string) (wanted : Z) (e : value) : outcome bool :=
  raw <- py_get e key (VInt (-1)) ;;
  n <- py_int raw ;;
  Return (n =? wanted).

(** The row carries under [field] a value that [int] turns into [x]; or
    it carries [None] there and [x] is the [-1] that stands for a missing
    id. *)
Definition has_id (field : string) (x : Z) (row : value) : Prop :=
  exists d v,
    row = VDict d /\ dict_lookup d field = Some v /\
    (py_int v = Return x \/ (v = VNone /\ x = -1)).

(** [v == x] for an int [x]. *)
Definition py_eq_int (v : value) (x : Z) : bool :=
  match v with
  | VInt n => n =? x
  | VBool b => (if b then 1 else 0) =? x
  | VFloat (FFinite q) => Qeq_bool q (inject_Z x)
  | _ => false
  end.

(** Every row carries under [field] a value equal to [x]. *)
Definition rows_have_id (field : string) (x : Z) (rows : list value) : Prop :=
  Forall (fun row => exists d v,
              row = VDict d /\ dict_lookup d field = Some v /\
              py_eq_int v x = true) rows.

(** The field table of the operations that map response items. *)
Definition mapping_fields (op : operation) : option (list (string * string)) :=
  match op with
  | SearchUsers _ => Some user_fields
  | GetCourses _ => Some course_fields
  | GetRecordedWebinars => Some course_fields
  | GetStudentEnrollments _ => Some learner_fields
  | GetCourseEnrolments _ => Some student_fields
  | GetCourseInstance _ _ | SearchCourses _ | GetFiaCourses _ => None
  end.

(** The rows in the result of an operation. *)
Definition output_rows (op : operation) (result : value)
    : option (list value) :=
  match op, result with
  | GetStudentEnrollments _, VDict d =>
      match dict_lookup d "courses" with
      | Some (VList rows) => Some rows
      | _ => None
      end
  | GetStudentEnrollments _, _ => None
  | _, VList rows => Some rows
  | _, _ => None
  end.

(** The operations that take the list bare or under ["data"]. *)
Definition dual_shape (op : operation) : bool :=
  match op with
  | SearchCourses _ | GetFiaCourses _
  | GetStudentEnrollments _ | GetCourseEnrolments _ => true
  | _ => false
  end.

(** No response, a 4xx or 5xx status, or a body that is not JSON. *)
Definition transport_failure (r : reply) : bool :=
  match r with
  | NoResponse _ _ => true
  | Got r =>
      ((400 <=? status_code r) && (status_code r <? 600))
      || match body r with inl _ => true | inr _ => false end
  end.

(** A body that is neither a list nor a dict with a ["data"] key. *)
Definition no_enrolments_shape (v : value) : bool :=
  match v with
  | VList _ => false
  | VDict d => match dict_lookup d "data" with Some _ => false | None => true end
  | _ => true
  end.

(** *** The shape of ISO 8601 strings *)












(** *** Notions for the rest of the client *)

(** The records of the rows that pass the test of an enrolment loop. *)
Definition matching_records (key : string) (wanted : Z)
    (fields : list (string * string)) (items : list value) : list value :=
  flat_map (fun e => match e, row_matches key wanted e with
                     | VDict d, Return true => [row_of fields d]
                     | _, _ => []
                     end) items.


(** The keys of a record, in their order. *)
Definition keys_of (row : value) : option (list string) :=
  match row with
  | VDict d => Some (map fst d)
  | _ => None
  end.

(** The objects [iter] refuses. *)
Definition not_iterable (v : value) : bool :=
  match v with
  | VNone | VBool _ | VInt _ | VFloat _ => true
  | VStr _ | VList _ | VDict _ => false
  end.

(** What [.get] raises on an object that is not a dict. *)
Definition no_get (v : value) : exn :=
  Exn AttributeError ("'" ++ type_name v ++ "' object has no attribute 'get'").

(** The first item that is not a dict. *)
Definition first_non_dict (items : list value) : option value :=
  find (fun e => negb (isinstance_dict e)) items.

(** ** Basic facts *)

Section Subseq.
Context {A : Type}.

Lemma subseq_nil_l (l : list A) : subseq [] l.
Proof. induction l; constructor; assumption. Qed.

Lemma subseq_refl (l : list A) : subseq l l.
Proof. induction l; constructor; assumption. Qed.

Lemma subseq_length (l1 l2 : list A) :
  subseq l1 l2 -> (List.length l1 <= List.length l2)%nat.
Proof. induction 1; simpl; lia. Qed.

Lemma subseq_In (l1 l2 : list A) :
  subseq l1 l2 -> forall x, In x l1 -> In x l2.
Proof.
  induction 1 as [|y k1 k2 _ IH|y k1 k2 _ IH]; intros x Hx.
  - assumption.
  - right. exact (IH x Hx).
  - destruct Hx as [->|Hx]; [left; reflexivity | right; exact (IH x Hx)].
Qed.
End Subseq.

Lemma bind_Return_inv {A B : Type} (c : outcome A) (k : A -> outcome B) (b : B) :
  bind c k = Return b -> exists a, c = Return a /\ k a = Return b.
Proof.
  destruct c as [a|e]; simpl; intros H; [exists a; split; trivial | discriminate].
Qed.

Lemma try_except_Return_inv {A : Type} (c : outcome A) (catches : exn -> bool)
    (handler : exn -> outcome A) (r : A) :
  try_except c catches handler = Return r ->
  c = Return r \/
  exists e, c = Raise e /\ catches e = true /\ handler e = Return r.
Proof.
  destruct c as [a|e]; simpl.
  - intros H; left; exact H.
  - destruct (catches e) eqn:Hc; intros H; [|discriminate].
    right. exists e. repeat split; assumption.
Qed.

Lemma py_get_Return_inv (e : value) (k : string) (default v : value) :
  py_get e k default = Return v ->
  exists d, e = VDict d /\
            v = match dict_lookup d k with Some x => x | None => default end.
Proof.
  destruct e; simpl; intros H; try discriminate.
  injection H as <-. eexists; split; reflexivity.
Qed.

Lemma gets_dict (fields : list (string * string)) (d : list (string * value)) :
  gets fields (VDict d) =
  Return (map (fun f => (fst f,
                         match dict_lookup d (snd f) with
                         | Some x => x
                         | None => VNone
                         end)) fields).
Proof.
  induction fields as [|[k src] rest IH]; simpl; [reflexivity|].
  rewrite IH. reflexivity.
Qed.

(** On a dict every field is filled, with [None] where the key is
    absent: the dict display does not raise. *)
Lemma dict_of_gets_dict (fields : list (string * string))
    (d : list (string * value)) :
  dict_of_gets fields (VDict d) = Return (row_of fields d).
Proof. unfold dict_of_gets, row_of. rewrite gets_dict. reflexivity. Qed.

Lemma dict_of_gets_Return_inv (fields : list (string * string))
    (e row : value) :
  fields <> [] -> dict_of_gets fields e = Return row ->
  exists d, e = VDict d /\ row = row_of fields d.
Proof.
  intros Hne H. destruct e; try (destruct fields as [|[k src] rest];
    [contradiction | discriminate]).
  rewrite dict_of_gets_dict in H. injection H as <-.
  eexists; split; reflexivity.
Qed.

(** *** Loops that append at most one row per item *)

Section Loop.
Variable step : value -> list value -> outcome (list value).
Variable R : value -> value -> Prop.

Hypothesis step_appends :
  forall e acc acc',
    step e acc = Return acc' ->
    acc' = acc \/ exists row, R e row /\ acc' = acc ++ [row].

Lemma for_each_rows (items : list value) :
  forall acc out,
    for_each items step acc = Return out ->
    exists kept rows,
      out = acc ++ rows /\ subseq kept items /\ Forall2 R kept rows.
Proof.
  induction items as [|x rest IH]; intros acc out H; simpl in H.
  - injection H as <-. exists [], []. rewrite app_nil_r.
    repeat split; constructor.
  - apply bind_Return_inv in H. destruct H as (acc1 & Hstep & Hrest).
    destruct (IH _ _ Hrest) as (kept & rows & -> & Hsub & Hrows).
    destruct (step_appends _ _ _ Hstep) as [->|(row & Hrow & ->)].
    + exists kept, rows. repeat split; [constructor|]; assumption.
    + exists (x :: kept), (row :: rows). rewrite <- app_assoc.
      repeat split; constructor; assumption.
Qed.
End Loop.

(** *** The exchange with the remote API *)

Lemma fetch_bind {B : Type} (w : web) (rq : request) (k : value -> outcome B) :
  (response <- requests_send w rq ;;
   raise_for_status response ;;;
   v <- response_json response ;; k v)
  = (v <- fetch w rq ;; k v).
Proof.
  unfold fetch, requests_send.
  destruct (w rq) as [t m|r]; simpl; [reflexivity|].
  destruct (raise_for_status r); simpl; [|reflexivity].
  destruct (response_json r); reflexivity.
Qed.

Lemma fetch_Got (w : web) (rq : request) (st : Z) (msg : string)
    (b : string + value) :
  w rq = Got (Response st msg b) ->
  fetch w rq =
  if (400 <=? st) && (st <? 600) then Raise (Exn HTTPError msg)
  else match b with
       | inl description => Raise (Exn JSONDecodeError description)
       | inr v => Return v
       end.
Proof.
  intros H. unfold fetch, requests_send, raise_for_status, response_json.
  rewrite H. simpl. destruct ((400 <=? st) && (st <? 600)); reflexivity.
Qed.

Lemma fetch_Return_inv (w : web) (rq : request) (v : value) :
  fetch w rq = Return v ->
  exists st msg,
    w rq = Got (Response st msg (inr v)) /\
    (400 <=? st) && (st <? 600) = false.
Proof.
  intros H. destruct (w rq) as [t m|[st msg b]] eqn:Hw.
  - unfold fetch, requests_send in H. rewrite Hw in H. discriminate.
  - rewrite (fetch_Got _ _ _ _ _ Hw) in H.
    destruct ((400 <=? st) && (st <? 600)) eqn:Hst; [discriminate|].
    destruct b as [description|v']; [discriminate|].
    injection H as ->. exists st, msg. split; trivial.
Qed.


Lemma fetch_failure (w : web) (rq : request) :
  transport_failure (w rq) = true ->
  exists e, fetch w rq = Raise e /\ is_RequestException e = true.
Proof.
  intros H. destruct (w rq) as [t m|[st msg b]] eqn:Hw.
  - unfold fetch, requests_send. rewrite Hw. simpl. eexists. split;
      [reflexivity | destruct t; reflexivity].
  - rewrite (fetch_Got _ _ _ _ _ Hw). unfold transport_failure in H.
    simpl in H. destruct ((400 <=? st) && (st <? 600)).
    + eexists. split; reflexivity.
    + destruct b as [description|v]; [|discriminate].
      eexists. split; reflexivity.
Qed.

(** *** The loops of the operations *)

Lemma search_users_step_appends (e : value) (acc acc' : list value) :
  search_users_step e acc = Return acc' ->
  acc' = acc \/
  exists row, dict_of_gets user_fields e = Return row /\ acc' = acc ++ [row].
Proof.
  unfold search_users_step. destruct (negb (isinstance_dict e)); intros H.
  - injection H as <-. left; reflexivity.
  - apply bind_Return_inv in H. destruct H as (row & Hrow & H).
    injection H as <-. right. exists row. split; trivial.
Qed.

Lemma course_step_appends (e : value) (acc acc' : list value) :
  course_step e acc = Return acc' ->
  acc' = acc \/
  exists row, dict_of_gets course_fields e = Return row /\ acc' = acc ++ [row].
Proof.
  unfold course_step. intros H.
  apply bind_Return_inv in H. destruct H as (row & Hrow & H).
  injection H as <-. right. exists row. split; trivial.
Qed.

Lemma enrolment_step_appends (key : string) (wanted : Z)
    (fields : list (string * string)) (e : value) (acc acc' : list value) :
  enrolment_step key wanted fields e acc = Return acc' ->
  acc' = acc \/
  exists row,
    (dict_of_gets fields e = Return row /\
     row_matches key wanted e = Return true) /\
    acc' = acc ++ [row].
Proof.
  unfold enrolment_step, row_matches. intros H.
  apply bind_Return_inv in H. destruct H as (raw & Hraw & H).
  apply bind_Return_inv in H. destruct H as (n & Hn & H).
  rewrite Hraw. cbn [bind]. rewrite Hn. cbn [bind].
  destruct (n =? wanted); simpl in H.
  - apply bind_Return_inv in H. destruct H as (row & Hrow & H).
    injection H as <-. right. exists row. repeat split; trivial.
  - injection H as <-. left; reflexivity.
Qed.

(** A row that passed the test carries the wanted id, up to [int]. *)
Lemma matching_row_has_id (key field : string) (wanted : Z)
    (fields : list (string * string)) (e row : value) :
  (forall d, exists r,
      row_of fields d = VDict r /\
      dict_lookup r field =
      Some (match dict_lookup d key with Some x => x | None => VNone end)) ->
  dict_of_gets fields e = Return row ->
  row_matches key wanted e = Return true ->
  has_id field wanted row.
Proof.
  intros Hfield Hrow Hm. unfold row_matches in Hm.
  apply bind_Return_inv in Hm. destruct Hm as (raw & Hraw & Hm).
  apply bind_Return_inv in Hm. destruct Hm as (n & Hn & Hm).
  injection Hm as Hm. apply Z.eqb_eq in Hm. subst n.
  apply py_get_Return_inv in Hraw. destruct Hraw as (d & -> & ->).
  rewrite dict_of_gets_dict in Hrow. injection Hrow as <-.
  destruct (Hfield d) as (r & Hr & Hlook).
  exists r. eexists. split; [exact Hr|]. split; [exact Hlook|].
  destruct (dict_lookup d key) as [x|].
  - left. exact Hn.
  - right. simpl in Hn. injection Hn as <-. split; reflexivity.
Qed.

(** *** The operations, from the decoded body on *)

Lemma search_users_eq (self : Axcelerate) (w : web) (a : search_users_args) :
  search_users self w a =
  try_except
    (users <- fetch w (search_users_request self a) ;;
     items <- py_iter users ;;
     payload <- for_each items search_users_step [] ;;
     Return (VList payload))
    is_RequestException (fun _ => Return (VList [])).
Proof. unfold search_users. rewrite fetch_bind. reflexivity. Qed.

Lemma get_courses_eq (self : Axcelerate) (w : web) (a : get_courses_args) :
  get_courses self w a =
  try_except
    (courses <- fetch w (get_courses_request self a) ;;
     items <- py_iter courses ;;
     payload <- for_each items course_step [] ;;
     Return (VList payload))
    is_RequestException (fun _ => Return (VList [])).
Proof. unfold get_courses. rewrite fetch_bind. reflexivity. Qed.

Lemma get_course_instance_eq (self : Axcelerate) (w : web)
    (course_id : Z) (type : string) :
  get_course_instance self w course_id type =
  try_except
    (v <- fetch w (get_course_instance_request self course_id type) ;; Return v)
    is_RequestException (fun _ => Return (VList [])).
Proof.
  unfold get_course_instance. fold (fetch w
    (get_course_instance_request self course_id type)).
  destruct (fetch w _); reflexivity.
Qed.

Lemma get_recorded_webinars_try_eq (self : Axcelerate) (w : web) :
  get_recorded_webinars_try self w =
  (webinars <- fetch w (get_recorded_webinars_request self) ;;
   items <- py_iter webinars ;;
   payload <- for_each items course_step [] ;;
   Return (VList payload)).
Proof. unfold get_recorded_webinars_try. rewrite fetch_bind. reflexivity. Qed.

Lemma search_courses_eq (self : Axcelerate) (w : web) (a : search_courses_args) :
  search_courses self w a =
  try_except
    (data <- fetch w (search_courses_request self a) ;;
     if isinstance_dict data then py_get data "data" (VList [])
     else if isinstance_list data then Return data
     else Return (VList []))
    is_RequestException (fun _ => Return (VList [])).
Proof. unfold search_courses. rewrite fetch_bind. reflexivity. Qed.

Lemma get_student_enrollments_eq (self : Axcelerate) (w : web) (contactID : Z) :
  get_student_enrollments self w contactID =
  try_except
    (payload <- fetch w (get_student_enrollments_request self contactID) ;;
     enrolments <- enrolments_of payload ;;
     items <- py_iter enrolments ;;
     courses <- for_each items
                  (enrolment_step "CONTACTID" contactID learner_fields) [] ;;
     Return (student_enrollments_result courses))
    is_RequestException
    (fun _ => Return (VDict [("enrolled", VBool false); ("courses", VList [])])).
Proof. unfold get_student_enrollments. rewrite fetch_bind. reflexivity. Qed.

Lemma get_course_enrolments_eq (self : Axcelerate) (w : web) (instanceID : Z) :
  get_course_enrolments self w instanceID =
  try_except
    (payload <- fetch w (get_course_enrolments_request self instanceID) ;;
     enrolments <- enrolments_of payload ;;
     items <- py_iter enrolments ;;
     students <- for_each items
                   (enrolment_step "INSTANCEID" instanceID student_fields) [] ;;
     Return (VList students))
    is_RequestException (fun _ => Return (VList [])).
Proof. unfold get_course_enrolments. rewrite fetch_bind. reflexivity. Qed.

(** An operation guarded by [except requests.RequestException]: on a
    transport failure it returns its default. *)
Lemma guarded_failure (w : web) (rq : request) (rest : value -> outcome value)
    (default : value) :
  transport_failure (w rq) = true ->
  try_except (v <- fetch w rq ;; rest v) is_RequestException
    (fun _ => Return default) = Return default.
Proof.
  intros H. destruct (fetch_failure _ _ H) as (e & -> & He).
  simpl. rewrite He. reflexivity.
Qed.

(** When a guarded operation returns, it returns its default or what the
    code after the decoding made of the body. *)
Lemma guarded_Return_inv (w : web) (rq : request)
    (rest : value -> outcome value) (default result : value) :
  try_except (v <- fetch w rq ;; rest v) is_RequestException
    (fun _ => Return default) = Return result ->
  result = default \/
  exists st msg v,
    w rq = Got (Response st msg (inr v)) /\ rest v = Return result.
Proof.
  intros H. apply try_except_Return_inv in H.
  destruct H as [H|(e & _ & _ & H)].
  - apply bind_Return_inv in H. destruct H as (v & Hv & Hrest).
    apply fetch_Return_inv in Hv. destruct Hv as (st & msg & Hw & _).
    right. exists st, msg, v. split; [exact Hw | exact Hrest].
  - injection H as <-. left; reflexivity.
Qed.

Lemma derived_of_rows (R : value -> value -> Prop)
    (fields : list (string * string)) (items kept rows : list value) :
  (forall e row, R e row -> dict_of_gets fields e = Return row) ->
  subseq kept items -> Forall2 R kept rows ->
  derived_in_order fields items rows /\
  (List.length rows <= List.length items)%nat.
Proof.
  intros HR Hsub Hrows. split.
  - exists kept. split; [assumption|].
    clear Hsub. induction Hrows; constructor; auto.
  - apply Forall2_length in Hrows. apply subseq_length in Hsub. lia.
Qed.

(** The rows a loop leaves are derived in order from the items. *)
Lemma loop_derived (step : value -> list value -> outcome (list value))
    (R : value -> value -> Prop) (fields : list (string * string))
    (items rows : list value) :
  (forall e acc acc',
      step e acc = Return acc' ->
      acc' = acc \/ exists row, R e row /\ acc' = acc ++ [row]) ->
  (forall e row, R e row -> dict_of_gets fields e = Return row) ->
  for_each items step [] = Return rows ->
  derived_in_order fields items rows /\
  (List.length rows <= List.length items)%nat.
Proof.
  intros Hstep HR H.
  destruct (for_each_rows step R Hstep _ _ _ H) as (kept & rows' & -> & Hs & HF).
  simpl. exact (derived_of_rows R fields items kept rows' HR Hs HF).
Qed.

Lemma no_rows_derived (fields : list (string * string)) (items : list value) :
  derived_in_order fields items [] /\
  (List.length (@nil value) <= List.length items)%nat.
Proof.
  split; [|simpl; lia]. exists []. split; [apply subseq_nil_l | constructor].
Qed.

Lemma learner_row_contact_id (d : list (string * value)) :
  exists r,
    row_of learner_fields d = VDict r /\
    dict_lookup r "contact_id" =
    Some (match dict_lookup d "CONTACTID" with Some x => x | None => VNone end).
Proof. eexists. split; reflexivity. Qed.

Lemma student_row_instance_id (d : list (string * value)) :
  exists r,
    row_of student_fields d = VDict r /\
    dict_lookup r "instance_id" =
    Some (match dict_lookup d "INSTANCEID" with Some x => x | None => VNone end).
Proof. eexists. split; reflexivity. Qed.

(** What the loop of an enrolment operation keeps: rows of items that
    passed the test, each carrying the wanted id. *)
Lemma enrolment_loop_rows (key field : string) (wanted : Z)
    (fields : list (string * string)) (items rows : list value) :
  (forall d, exists r,
      row_of fields d = VDict r /\
      dict_lookup r field =
      Some (match dict_lookup d key with Some x => x | None => VNone end)) ->
  for_each items (enrolment_step key wanted fields) [] = Return rows ->
  Forall (has_id field wanted) rows /\
  exists kept,
    subseq kept items /\
    Forall2 (fun e row => dict_of_gets fields e = Return row /\
                          row_matches key wanted e = Return true) kept rows.
Proof.
  intros Hfield H.
  destruct (for_each_rows _ _ (enrolment_step_appends key wanted fields) _ _ _ H)
    as (kept & rows' & -> & Hsub & HF).
  simpl. split; [|exists kept; split; assumption].
  clear Hsub H. induction HF as [|e row kept' rows'' [Hrow Hm] _ IH];
    constructor; [|exact IH].
  exact (matching_row_has_id key field wanted fields e row Hfield Hrow Hm).
Qed.

(** ** Enrolments of a learner and of a course instance *)

(** C4, as the specification words it, fails: asked for contact 5, the
    operation keeps a row whose CONTACTID is the string "5", and the
    [contact_id] of the output row is that string, not the number 5. *)
Lemma student_enrollments_contact_id_not_equal :
  get_student_enrollments example_client
    (replies_with (VList [VDict [("CONTACTID", VStr "5")]])) 5
  = Return (student_enrollments_result
              [row_of learner_fields [("CONTACTID", VStr "5")]])
  /\ ~ rows_have_id "contact_id" 5
         [row_of learner_fields [("CONTACTID", VStr "5")]].
Proof.
  split; [reflexivity|].
  intros H. inversion H as [|row rows (d & v & Hd & Hv & Heq) _]; subst.
  injection Hd as <-. simpl in Hv. injection Hv as <-. discriminate.
Qed.

(** Rows that fail the test leave what the loop has kept as it is. *)
Lemma no_match_loop (key : string) (wanted : Z)
    (fields : list (string * string)) (items kept : list value) :
  Forall (fun e => row_matches key wanted e = Return false) items ->
  for_each items (enrolment_step key wanted fields) kept = Return kept.
Proof.
  induction 1 as [|e rest He _ IH]; [reflexivity|].
  cbn [for_each]. unfold row_matches in He. unfold enrolment_step at 1.
  destruct (py_get e key (VInt (-1))) as [raw|]; [|discriminate].
  cbn [bind] in He |- *.
  destruct (py_int raw) as [n|]; [|discriminate].
  cbn [bind] in He |- *. injection He as ->. exact IH.
Qed.

(** C4, amended: whenever [get_student_enrollments(contactID=X)] returns,
    every row of [courses] carries a [contact_id] that [int] turns into X
    (or [None], for a row without CONTACTID when X is -1), and [enrolled]
    is true exactly when [courses] is not empty; and when the response is
    a list every row of which fails the test on the contact id, the
    operation returns [{enrolled: False, courses: []}]. *)
Theorem student_enrollments_rows_carry_contact_id :
  forall (self : Axcelerate) (w : web) (contactID : Z),
    (forall result,
        get_student_enrollments self w contactID = Return result ->
        exists courses,
          result = VDict [("enrolled",
                           VBool (match courses with
                                  | [] => false
                                  | _ => true
                                  end));
                          ("courses", VList courses)] /\
          Forall (has_id "contact_id" contactID) courses)
    /\
    (forall st msg items,
        w (get_student_enrollments_request self contactID)
        = Got (Response st msg (inr (VList items))) ->
        Forall (fun e => row_matches "CONTACTID" contactID e = Return false)
          items ->
        get_student_enrollments self w contactID
        = Return (VDict [("enrolled", VBool false); ("courses", VList [])])).
Proof.
  intros self w contactID. split.
  - intros result H.
    rewrite get_student_enrollments_eq in H. apply guarded_Return_inv in H.
    destruct H as [->|(st & msg & v & Hw & H)].
    + exists []. split; [reflexivity|constructor].
    + apply bind_Return_inv in H. destruct H as (enrolments & Hen & H).
      apply bind_Return_inv in H. destruct H as (its & Hits & H).
      apply bind_Return_inv in H. destruct H as (courses & Hloop & H).
      injection H as <-.
      destruct (enrolment_loop_rows "CONTACTID" "contact_id" contactID
                  learner_fields its courses learner_row_contact_id Hloop)
        as (Hids & _).
      exists courses. split; [|exact Hids].
      unfold student_enrollments_result. destruct courses; reflexivity.
  - intros st msg items Hw Hno.
    rewrite get_student_enrollments_eq, (fetch_Got _ _ _ _ _ Hw).
    destruct ((400 <=? st) && (st <? 600)); [reflexivity|].
    cbn [bind try_except enrolments_of isinstance_list py_iter].
    rewrite (no_match_loop _ _ _ _ _ Hno). reflexivity.
Qed.

Lemma student_enrollments_rows_carry_contact_id_witness :
  (exists courses,
      VDict [("enrolled", VBool true);
             ("courses",
              VList [row_of learner_fields
                       [("CONTACTID", VStr "5"); ("NAME", VStr "Wardens")]])]
      = VDict [("enrolled",
                VBool (match courses with [] => false | _ => true end));
               ("courses", VList courses)] /\
      Forall (has_id "contact_id" 5) courses)
  /\ get_student_enrollments example_client (replies_with two_enrolments) 7
     = Return (VDict [("enrolled", VBool false); ("courses", VList [])]).
Proof.
  split.
  - apply (proj1 (student_enrollments_rows_carry_contact_id example_client
                    (replies_with two_enrolments) 5)).
    reflexivity.
  - apply (proj2 (student_enrollments_rows_carry_contact_id example_client
                    (replies_with two_enrolments) 7) 200 "OK"
             [VDict [("CONTACTID", VStr "5"); ("NAME", VStr "Wardens")];
              VDict [("CONTACTID", VInt 6)]]).
    + reflexivity.
    + repeat constructor.
Defined.

(** C5, as the specification words it, fails: asked for instance 7, the
    operation keeps a row whose INSTANCEID is the string "7", and the
    [instance_id] of the output row is that string, not the number 7. *)
Lemma course_enrolments_instance_id_not_equal :
  get_course_enrolments example_client
    (replies_with (VList [VDict [("INSTANCEID", VStr "7")]])) 7
  = Return (VList [row_of student_fields [("INSTANCEID", VStr "7")]])
  /\ ~ rows_have_id "instance_id" 7
         [row_of student_fields [("INSTANCEID", VStr "7")]].
Proof.
  split; [reflexivity|].
  intros H. inversion H as [|row rows (d & v & Hd & Hv & Heq) _]; subst.
  injection Hd as <-. simpl in Hv. injection Hv as <-. discriminate.
Qed.

(** C5, amended: whenever [get_course_enrolments(instanceID=Y)] returns,
    it returns a list each row of which carries an [instance_id] that
    [int] turns into Y (or [None], for a row without INSTANCEID when Y is
    -1). *)
Theorem course_enrolments_rows_carry_instance_id :
  forall (self : Axcelerate) (w : web) (instanceID : Z) (result : value),
    get_course_enrolments self w instanceID = Return result ->
    exists students,
      result = VList students /\
      Forall (has_id "instance_id" instanceID) students.
Proof.
  intros self w instanceID result H.
  rewrite get_course_enrolments_eq in H. apply guarded_Return_inv in H.
  destruct H as [->|(st & msg & v & Hw & H)].
  - exists []. split; [reflexivity|constructor].
  - apply bind_Return_inv in H. destruct H as (enrolments & Hen & H).
    apply bind_Return_inv in H. destruct H as (its & Hits & H).
    apply bind_Return_inv in H. destruct H as (students & Hloop & H).
    injection H as <-.
    destruct (enrolment_loop_rows "INSTANCEID" "instance_id" instanceID
                student_fields its students student_row_instance_id Hloop)
      as (Hids & _).
    exists students. split; [reflexivity|exact Hids].
Qed.

Lemma course_enrolments_rows_carry_instance_id_witness :
  exists students,
    VList [row_of student_fields
             [("INSTANCEID", VStr "7"); ("SURNAME", VStr "Garbo")]]
    = VList students /\
    Forall (has_id "instance_id" 7) students.
Proof.
  apply (course_enrolments_rows_carry_instance_id example_client
           (replies_with
              (VList [VDict [("INSTANCEID", VStr "7"); ("SURNAME", VStr "Garbo")];
                      VDict [("INSTANCEID", VInt 8)]])) 7).
  reflexivity.
Defined.

(** ** Order and source of the rows *)

(** C10, as the specification words it, fails for [get_recorded_webinars]:
    on the response list [[5]] its one output row is the error marker,
    which is the record of no item of the response. *)
Lemma webinars_marker_row_not_derived :
  get_recorded_webinars example_client (replies_with (VList [VInt 5]))
  = Return (VList [error_marker
                     (Exn AttributeError "'int' object has no attribute 'get'")])
  /\ ~ derived_in_order course_fields [VInt 5]
         [error_marker
            (Exn AttributeError "'int' object has no attribute 'get'")].
Proof.
  split; [reflexivity|].
  intros (kept & Hsub & HF).
  inversion HF as [|e row kept' rows' Hrow Hrest]; subst.
  assert (He : e = VInt 5).
  { assert (Hin : In e [VInt 5])
      by (apply (subseq_In _ _ Hsub); left; reflexivity).
    destruct Hin as [<-|[]]. reflexivity. }
  subst e. discriminate.
Qed.

(** C10, amended: when the response is a list and a mapping operation
    returns, its output rows are the records of some of the response
    items, one row per item kept, in the order of the response, so that
    there are no more rows than items; except that
    [get_recorded_webinars] may instead return its single error-marker
    row. *)
Theorem mapped_rows_keep_order_and_source :
  forall (self : Axcelerate) (w : web) (op : operation)
         (fields : list (string * string))
         (st : Z) (msg : string) (items : list value) (result : value),
    mapping_fields op = Some fields ->
    w (request_of self op) = Got (Response st msg (inr (VList items))) ->
    run self w op = Return result ->
    exists rows,
      output_rows op result = Some rows /\
      ((derived_in_order fields items rows /\
        (List.length rows <= List.length items)%nat)
       \/ (op = GetRecordedWebinars /\ exists e, rows = [error_marker e])).
Proof.
  intros self w op fields st msg items result Hf Hw Hrun.
  destruct op; simpl in Hf; try discriminate; injection Hf as <-;
    simpl in Hw, Hrun.
  - (* search_users *)
    rewrite search_users_eq in Hrun. apply guarded_Return_inv in Hrun.
    destruct Hrun as [->|(st' & msg' & v & Hw' & H)].
    + exists []. split; [reflexivity|]. left. apply no_rows_derived.
    + rewrite Hw in Hw'. injection Hw' as _ _ <-.
      apply bind_Return_inv in H. destruct H as (its & Hits & H).
      injection Hits as <-.
      apply bind_Return_inv in H. destruct H as (rows & Hloop & H).
      injection H as <-. exists rows. split; [reflexivity|]. left.
      apply (loop_derived _ _ _ _ _ search_users_step_appends
               (fun _ _ Hr => Hr) Hloop).
  - (* get_courses *)
    rewrite get_courses_eq in Hrun. apply guarded_Return_inv in Hrun.
    destruct Hrun as [->|(st' & msg' & v & Hw' & H)].
    + exists []. split; [reflexivity|]. left. apply no_rows_derived.
    + rewrite Hw in Hw'. injection Hw' as _ _ <-.
      apply bind_Return_inv in H. destruct H as (its & Hits & H).
      injection Hits as <-.
      apply bind_Return_inv in H. destruct H as (rows & Hloop & H).
      injection H as <-. exists rows. split; [reflexivity|]. left.
      apply (loop_derived _ _ _ _ _ course_step_appends
               (fun _ _ Hr => Hr) Hloop).
  - (* get_recorded_webinars *)
    unfold get_recorded_webinars in Hrun.
    apply try_except_Return_inv in Hrun.
    destruct Hrun as [H|(e & _ & _ & H)].
    + rewrite get_recorded_webinars_try_eq in H.
      apply bind_Return_inv in H. destruct H as (v & Hv & H).
      apply fetch_Return_inv in Hv. destruct Hv as (st' & msg' & Hw' & _).
      rewrite Hw in Hw'. injection Hw' as _ _ <-.
      apply bind_Return_inv in H. destruct H as (its & Hits & H).
      injection Hits as <-.
      apply bind_Return_inv in H. destruct H as (rows & Hloop & H).
      injection H as <-. exists rows. split; [reflexivity|]. left.
      apply (loop_derived _ _ _ _ _ course_step_appends
               (fun _ _ Hr => Hr) Hloop).
    + injection H as <-. exists [error_marker e]. split; [reflexivity|].
      right. split; [reflexivity|]. exists e. reflexivity.
  - (* get_student_enrollments *)
    rewrite get_student_enrollments_eq in Hrun.
    apply guarded_Return_inv in Hrun.
    destruct Hrun as [->|(st' & msg' & v & Hw' & H)].
    + exists []. split; [reflexivity|]. left. apply no_rows_derived.
    + rewrite Hw in Hw'. injection Hw' as _ _ <-.
      apply bind_Return_inv in H. destruct H as (en & Hen & H).
      injection Hen as <-.
      apply bind_Return_inv in H. destruct H as (its & Hits & H).
      injection Hits as <-.
      apply bind_Return_inv in H. destruct H as (rows & Hloop & H).
      injection H as <-. exists rows. split; [reflexivity|]. left.
      apply (loop_derived _ _ _ _ _
               (enrolment_step_appends "CONTACTID" contactID learner_fields)
               (fun _ _ Hr => proj1 Hr) Hloop).
  - (* get_course_enrolments *)
    rewrite get_course_enrolments_eq in Hrun.
    apply guarded_Return_inv in Hrun.
    destruct Hrun as [->|(st' & msg' & v & Hw' & H)].
    + exists []. split; [reflexivity|]. left. apply no_rows_derived.
    + rewrite Hw in Hw'. injection Hw' as _ _ <-.
      apply bind_Return_inv in H. destruct H as (en & Hen & H).
      injection Hen as <-.
      apply bind_Return_inv in H. destruct H as (its & Hits & H).
      injection Hits as <-.
      apply bind_Return_inv in H. destruct H as (rows & Hloop & H).
      injection H as <-. exists rows. split; [reflexivity|]. left.
      apply (loop_derived _ _ _ _ _
               (enrolment_step_appends "INSTANCEID" instanceID student_fields)
               (fun _ _ Hr => proj1 Hr) Hloop).
Qed.

Lemma mapped_rows_keep_order_and_source_witness :
  exists rows,
    output_rows (SearchUsers no_user_filter)
      (VList [row_of user_fields [("CONTACTID", VInt 1); ("SURNAME", VStr "Garbo")];
              row_of user_fields [("CONTACTID", VInt 2)]])
    = Some rows /\
    ((derived_in_order user_fields
        [VDict [("CONTACTID", VInt 1); ("SURNAME", VStr "Garbo")];
         VStr "noise";
         VDict [("CONTACTID", VInt 2)]] rows /\
      (List.length rows
       <= List.length
            [VDict [("CONTACTID", VInt 1); ("SURNAME", VStr "Garbo")];
             VStr "noise";
             VDict [("CONTACTID", VInt 2)]])%nat)
     \/ (SearchUsers no_user_filter = GetRecordedWebinars /\
         exists e, rows = [error_marker e])).
Proof.
  apply (mapped_rows_keep_order_and_source example_client
           (replies_with
              (VList [VDict [("CONTACTID", VInt 1); ("SURNAME", VStr "Garbo")];
                      VStr "noise";
                      VDict [("CONTACTID", VInt 2)]]))
           (SearchUsers no_user_filter) user_fields 200 "OK");
    reflexivity.
Defined.

(** ** The two shapes of a response *)

(** C6: for [search_courses], [get_student_enrollments] and
    [get_course_enrolments] (and for [get_fia_courses], which calls the
    first), a response whose body is a dict holding the list L under
    ["data"] gives exactly the result that the same response with the
    bare list L as its body gives. *)
Theorem data_wrapped_list_same_as_bare_list :
  forall (self : Axcelerate) (w1 w2 : web) (op : operation)
         (st : Z) (msg : string) (d : list (string * value))
         (items : list value),
    dual_shape op = true ->
    dict_lookup d "data" = Some (VList items) ->
    w1 (request_of self op) = Got (Response st msg (inr (VDict d))) ->
    w2 (request_of self op) = Got (Response st msg (inr (VList items))) ->
    run self w1 op = run self w2 op.
Proof.
  intros self w1 w2 op st msg d items Hop Hd Hw1 Hw2.
  destruct op; try discriminate; simpl in Hw1, Hw2 |- *;
    unfold get_fia_courses;
    rewrite ?search_courses_eq, ?get_student_enrollments_eq,
      ?get_course_enrolments_eq;
    rewrite (fetch_Got _ _ _ _ _ Hw1), (fetch_Got _ _ _ _ _ Hw2);
    destruct ((400 <=? st) && (st <? 600)); try reflexivity;
    simpl; rewrite Hd; reflexivity.
Qed.

Lemma data_wrapped_list_same_as_bare_list_witness :
  run example_client
    (replies_with (VDict [("data", two_enrolments); ("total", VInt 2)]))
    (GetStudentEnrollments 5)
  = run example_client (replies_with two_enrolments) (GetStudentEnrollments 5).
Proof.
  apply (data_wrapped_list_same_as_bare_list example_client _ _
           (GetStudentEnrollments 5) 200 "OK"
           [("data", two_enrolments); ("total", VInt 2)]
           [VDict [("CONTACTID", VStr "5"); ("NAME", VStr "Wardens")];
            VDict [("CONTACTID", VInt 6)]]);
    reflexivity.
Defined.

(** ** The error marker of the webinar listing *)


(** C7: whatever exception the body of [get_recorded_webinars] raises, a
    transport error or any other, the operation returns the one-element
    list holding [{"error": True, "message": "Unexpected error: " +
    str(e)}]. *)
Theorem webinars_any_exception_gives_marker :
  forall (self : Axcelerate) (w : web) (e : exn),
    get_recorded_webinars_try self w = Raise e ->
    get_recorded_webinars self w
    = Return (VList [VDict [("error", VBool true);
                            ("message",
                             VStr ("Unexpected error: " ++ exn_str e)%string)]]).
Proof.
  intros self w e H. unfold get_recorded_webinars. rewrite H. reflexivity.
Qed.

Lemma webinars_any_exception_gives_marker_witness :
  get_recorded_webinars example_client (replies_with (VList [VInt 5]))
  = Return (VList [VDict [("error", VBool true);
                          ("message",
                           VStr "Unexpected error: 'int' object has no attribute 'get'")]]).
Proof.
  apply (webinars_any_exception_gives_marker example_client
           (replies_with (VList [VInt 5]))
           (Exn AttributeError "'int' object has no attribute 'get'")).
  reflexivity.
Defined.

(** ** The outgoing request *)




(** *** The shape of what [isoformat] prints *)










(** ** Items that are not records *)

Lemma search_users_loop (items : list value) :
  forall acc,
    for_each items search_users_step acc
    = Return (acc ++ records_of user_fields items).
Proof.
  induction items as [|e rest IH]; intros acc.
  - simpl. rewrite app_nil_r. reflexivity.
  - cbn [for_each]. unfold search_users_step at 1.
    destruct e; cbn [isinstance_dict negb bind];
      try (rewrite IH; reflexivity).
    rewrite dict_of_gets_dict. cbn [bind].
    rewrite IH, <- app_assoc. reflexivity.
Qed.

(** On a response list [search_users] passes over the items that are not
    dicts and fills the fields a dict lacks with [None]. *)
Lemma search_users_on_list (self : Axcelerate) (w : web) (a : search_users_args)
    (st : Z) (msg : string) (items : list value) :
  w (search_users_request self a) = Got (Response st msg (inr (VList items))) ->
  (400 <=? st) && (st <? 600) = false ->
  search_users self w a = Return (VList (records_of user_fields items)).
Proof.
  intros Hw Hst. rewrite search_users_eq, (fetch_Got _ _ _ _ _ Hw), Hst.
  simpl. rewrite search_users_loop. reflexivity.
Qed.

(** C1: the code does not do, outside [search_users], what the claim
    says.  On the response list [[{"ID": 1}, null]] the loop of
    [get_courses] calls [.get] on the item [None], and the
    [AttributeError] leaves the operation, whose handler catches
    [RequestException] only; the same happens in both enrolment
    operations.  [search_users], on the same list, passes over the
    item. *)
Theorem get_courses_raises_on_item_that_is_no_record :
  forall (self : Axcelerate) (a : get_courses_args) (a' : search_users_args),
    get_courses self (replies_with (VList [VDict [("ID", VInt 1)]; VNone])) a
    = Raise (Exn AttributeError "'NoneType' object has no attribute 'get'")
    /\ get_student_enrollments self
         (replies_with (VList [VDict [("ID", VInt 1)]; VNone])) 5
       = Raise (Exn AttributeError "'NoneType' object has no attribute 'get'")
    /\ get_course_enrolments self
         (replies_with (VList [VDict [("ID", VInt 1)]; VNone])) 7
       = Raise (Exn AttributeError "'NoneType' object has no attribute 'get'")
    /\ search_users self
         (replies_with (VList [VDict [("ID", VInt 1)]; VNone])) a'
       = Return (VList [row_of user_fields [("ID", VInt 1)]]).
Proof. intros self a a'. repeat split; reflexivity. Qed.

(** ** Failures of the transport and malformed bodies *)

(** On a transport failure every operation with a handler for
    [RequestException] returns its default. *)
Lemma transport_failure_gives_default (self : Axcelerate) (w : web)
    (op : operation) (default : value) :
  default_result op = Some default ->
  transport_failure (w (request_of self op)) = true ->
  run self w op = Return default.
Proof.
  intros Hd Hw.
  destruct op; simpl in Hd; try discriminate; injection Hd as <-;
    simpl in Hw |- *; unfold get_fia_courses;
    rewrite ?search_users_eq, ?get_courses_eq, ?get_course_instance_eq,
      ?search_courses_eq, ?get_student_enrollments_eq,
      ?get_course_enrolments_eq;
    exact (guarded_failure _ _ _ _ Hw).
Qed.

(** The operations that take two shapes return their default for a body
    of neither shape. *)
Lemma other_shape_gives_default (self : Axcelerate) (w : web)
    (op : operation) (default : value) (st : Z) (msg : string) (v : value) :
  dual_shape op = true ->
  default_result op = Some default ->
  w (request_of self op) = Got (Response st msg (inr v)) ->
  no_enrolments_shape v = true ->
  run self w op = Return default.
Proof.
  intros Hop Hd Hw Hv.
  destruct op; try discriminate; injection Hd as <-;
    simpl in Hw |- *; unfold get_fia_courses;
    rewrite ?search_courses_eq, ?get_student_enrollments_eq,
      ?get_course_enrolments_eq;
    rewrite (fetch_Got _ _ _ _ _ Hw);
    destruct ((400 <=? st) && (st <? 600)); try reflexivity;
    destruct v as [| | | | |l|d]; try discriminate; try reflexivity;
    simpl in Hv |- *; destruct (dict_lookup d "data"); try discriminate;
    reflexivity.
Qed.

(** C2: the code does not do, in the operations that take one shape, what
    the claim says of a body that is not a list.  [search_users] iterates
    over the body [null] and the [TypeError] leaves the operation;
    [get_courses] iterates over the keys of an error object and the
    [AttributeError] leaves the operation; [get_course_instance] returns
    the error object as it came. *)
Theorem body_that_is_no_list_not_turned_into_default :
  forall (self : Axcelerate) (a : search_users_args) (a' : get_courses_args)
         (course_id : Z) (type : string),
    search_users self (replies_with VNone) a
    = Raise (Exn TypeError "'NoneType' object is not iterable")
    /\ get_courses self (replies_with (VDict [("error", VStr "denied")])) a'
       = Raise (Exn AttributeError "'str' object has no attribute 'get'")
    /\ get_course_instance self
         (replies_with (VDict [("error", VStr "denied")])) course_id type
       = Return (VDict [("error", VStr "denied")]).
Proof. intros. repeat split; reflexivity. Qed.

(** ** Rows whose id is not a number *)

(** A row without the id is passed over, unless the id asked for is the
    [-1] that stands for a missing id. *)
Lemma row_without_id_is_passed_over (key : string) (wanted : Z)
    (fields : list (string * string)) (d : list (string * value))
    (kept : list value) :
  dict_lookup d key = None -> wanted <> -1 ->
  enrolment_step key wanted fields (VDict d) kept = Return kept.
Proof.
  intros Hd Hw. unfold enrolment_step, py_get. rewrite Hd.
  cbn [bind py_int].
  destruct (-1 =? wanted) eqn:E; [|reflexivity].
  apply Z.eqb_eq in E. congruence.
Qed.

(** C3: the code does not do what the claim says of a row whose id is
    not a number.  [int("abc")] raises [ValueError] in the test of the
    loop, and the handler, which catches [RequestException] only, lets it
    leave the operation; so does the [TypeError] of [int(None)] for a
    row whose id is [null]. *)
Theorem enrolment_row_with_non_numeric_id_raises :
  forall (self : Axcelerate),
    get_student_enrollments self
      (replies_with (VList [VDict [("CONTACTID", VStr "abc")]])) 5
    = Raise (Exn ValueError "invalid literal for int() with base 10: 'abc'")
    /\ get_course_enrolments self
         (replies_with (VList [VDict [("INSTANCEID", VStr "abc")]])) 7
       = Raise (Exn ValueError "invalid literal for int() with base 10: 'abc'")
    /\ get_student_enrollments self
         (replies_with (VList [VDict [("CONTACTID", VNone)]])) 5
       = Raise (Exn TypeError
                  "int() argument must be a string, a bytes-like object or a real number, not 'NoneType'").
Proof. intros. repeat split; reflexivity. Qed.

(** ** The examples of the specification *)

(** [search_users(surname="Garbo")] against a stub that returns one
    contact. *)
Example search_users_garbo :
  search_users example_client
    (replies_with
       (VList [VDict [("CONTACTID", VInt 1); ("SURNAME", VStr "Garbo");
                      ("GIVENNAME", VStr "Mario")]]))
    {| su_q := None; su_givenName := None; su_surname := Some "Garbo";
       su_emailAddress := None; su_contactRoleID := None;
       su_contactIDs := None; su_contactID := None |}
  = Return
      (VList [VDict [("contact_id", VInt 1); ("user_id", VNone);
                     ("given_name", VStr "Mario"); ("surname", VStr "Garbo");
                     ("email", VNone); ("alt_email", VNone); ("sex", VNone);
                     ("mobile", VNone); ("work_phone", VNone);
                     ("organisation", VNone); ("position", VNone);
                     ("active", VNone)]]).
Proof. reflexivity. Qed.

(** [get_courses()] against a stub that answers with status 503. *)
Example get_courses_status_503 :
  get_courses example_client
    (fun _ => Got (Response 503 "503 Server Error" (inr (VList [VInt 1]))))
    no_course_filter
  = Return (VList []).
Proof. reflexivity. Qed.

(** [get_recorded_webinars()] against a stub whose body does not parse. *)
Example get_recorded_webinars_unparsable :
  get_recorded_webinars example_client
    (fun _ => Got (Response 200 "OK" (inl "Expecting value: line 1 column 1 (char 0)")))
  = Return
      (VList [VDict [("error", VBool true);
                     ("message",
                      VStr "Unexpected error: Expecting value: line 1 column 1 (char 0)")]]).
Proof. reflexivity. Qed.

(** What [get_fia_courses(display_length=5)] sends. *)
Example get_fia_courses_query :
  encode_params
    (req_params (request_of example_client (GetFiaCourses (Some 5))))
  = [("type", VStr "p"); ("trainingCategory", VStr "FIA Courses");
     ("displayLength", VInt 5)].
Proof. reflexivity. Qed.

(** ** The rest of the client *)

(** *** Transport failures and bodies of another shape *)

Lemma transport_failure_gives_default_witness :
  run example_client (fun _ => NoResponse true "read timed out")
    (GetStudentEnrollments 5)
  = Return (VDict [("enrolled", VBool false); ("courses", VList [])]).
Proof.
  apply (transport_failure_gives_default example_client
           (fun _ => NoResponse true "read timed out")
           (GetStudentEnrollments 5)); reflexivity.
Defined.

Lemma other_shape_gives_default_witness :
  run example_client (replies_with (VDict [("error", VStr "denied")]))
    (GetCourseEnrolments 7)
  = Return (VList []).
Proof.
  apply (other_shape_gives_default example_client
           (replies_with (VDict [("error", VStr "denied")]))
           (GetCourseEnrolments 7) (VList []) 200 "OK"
           (VDict [("error", VStr "denied")])); reflexivity.
Defined.

Lemma search_users_on_list_witness :
  search_users example_client
    (replies_with (VList [VDict [("SURNAME", VStr "Garbo")]; VNone; VInt 3]))
    no_user_filter
  = Return (VList (records_of user_fields
                     [VDict [("SURNAME", VStr "Garbo")]; VNone; VInt 3])).
Proof.
  apply (search_users_on_list example_client
           (replies_with
              (VList [VDict [("SURNAME", VStr "Garbo")]; VNone; VInt 3]))
           no_user_filter 200 "OK"); reflexivity.
Defined.

(** *** Operations that do not loop over the body *)



(** X4: when the response has a status below 400 (or from 600 on) and a
    list as its body, [get_course_instance], [search_courses] and
    [get_fia_courses] return that list as it came: no item is dropped,
    moved or reshaped. *)
Theorem list_body_comes_back_unchanged :
  forall (self : Axcelerate) (w : web) (op : operation)
         (st : Z) (msg : string) (items : list value),
    mapping_fields op = None ->
    w (request_of self op) = Got (Response st msg (inr (VList items))) ->
    (400 <=? st) && (st <? 600) = false ->
    run self w op = Return (VList items).
Proof.
  intros self w op st msg items Hop Hw Hst.
  destruct op; try discriminate; simpl in Hw |- *; unfold get_fia_courses;
    rewrite ?get_course_instance_eq, ?search_courses_eq;
    rewrite (fetch_Got _ _ _ _ _ Hw), Hst; reflexivity.
Qed.

Lemma list_body_comes_back_unchanged_witness :
  run example_client (replies_with two_enrolments) (GetCourseInstance 77281 "p")
  = Return two_enrolments.
Proof.
  apply (list_body_comes_back_unchanged example_client
           (replies_with two_enrolments) (GetCourseInstance 77281 "p")
           200 "OK"); reflexivity.
Defined.

(** *** [search_users] on every body *)



Lemma no_records_of_strings (fields : list (string * string))
    (l : list string) :
  records_of fields (map VStr l) = [].
Proof. induction l as [|s l IH]; [reflexivity|exact IH]. Qed.

(** X15: when the body is an object or a string, [search_users] iterates
    over its keys or characters, finds no dict among them and returns
    the empty list. *)
Theorem search_users_on_object_or_string :
  forall (self : Axcelerate) (w : web) (a : search_users_args)
         (st : Z) (msg : string) (v : value),
    w (search_users_request self a) = Got (Response st msg (inr v)) ->
    (400 <=? st) && (st <? 600) = false ->
    isinstance_list v = false -> not_iterable v = false ->
    search_users self w a = Return (VList []).
Proof.
  intros self w a st msg v Hw Hst Hl Hi.
  rewrite search_users_eq, (fetch_Got _ _ _ _ _ Hw), Hst.
  destruct v; try discriminate; simpl; rewrite search_users_loop; simpl.
  - rewrite no_records_of_strings. reflexivity.
  - rewrite <- (map_map fst VStr), no_records_of_strings. reflexivity.
Qed.

Lemma search_users_on_object_or_string_witness :
  search_users example_client
    (replies_with (VDict [("error", VStr "denied")])) no_user_filter
  = Return (VList []).
Proof.
  apply (search_users_on_object_or_string example_client
           (replies_with (VDict [("error", VStr "denied")])) no_user_filter
           200 "OK" (VDict [("error", VStr "denied")])); reflexivity.
Defined.

(** *** [get_courses] and [get_recorded_webinars] on a list *)

Lemma course_loop (items : list value) :
  forall acc,
    for_each items course_step acc
    = match first_non_dict items with
      | None => Return (acc ++ records_of course_fields items)
      | Some bad => Raise (no_get bad)
      end.
Proof.
  induction items as [|e rest IH]; intros acc.
  - simpl. rewrite app_nil_r. reflexivity.
  - cbn [for_each]. unfold course_step at 1, first_non_dict. cbn [find].
    destruct e; cbn [isinstance_dict negb]; try reflexivity.
    rewrite dict_of_gets_dict. cbn [bind]. rewrite IH.
    unfold first_non_dict.
    destruct (find (fun e => negb (isinstance_dict e)) rest); [reflexivity|].
    cbn [records_of flat_map]. rewrite <- app_assoc. reflexivity.
Qed.

(** X7: on a response list [get_courses] returns one record per item, in
    the order of the response, when every item is a dict; otherwise it
    raises the [AttributeError] of the first item that is not one, and
    returns no record at all. *)
Theorem get_courses_on_list :
  forall (self : Axcelerate) (w : web) (a : get_courses_args)
         (st : Z) (msg : string) (items : list value),
    w (get_courses_request self a)
    = Got (Response st msg (inr (VList items))) ->
    (400 <=? st) && (st <? 600) = false ->
    get_courses self w a
    = match first_non_dict items with
      | None => Return (VList (records_of course_fields items))
      | Some bad => Raise (no_get bad)
      end.
Proof.
  intros self w a st msg items Hw Hst.
  rewrite get_courses_eq, (fetch_Got _ _ _ _ _ Hw), Hst.
  cbn [bind py_iter]. rewrite course_loop.
  destruct (first_non_dict items); reflexivity.
Qed.

Lemma get_courses_on_list_witness :
  get_courses example_client
    (replies_with (VList [VDict [("ID", VInt 1)]; VStr "x"; VNone]))
    no_course_filter
  = match first_non_dict [VDict [("ID", VInt 1)]; VStr "x"; VNone] with
    | None => Return (VList (records_of course_fields
                               [VDict [("ID", VInt 1)]; VStr "x"; VNone]))
    | Some bad => Raise (no_get bad)
    end.
Proof.
  apply (get_courses_on_list example_client
           (replies_with (VList [VDict [("ID", VInt 1)]; VStr "x"; VNone]))
           no_course_filter 200 "OK"); reflexivity.
Defined.

(** X8: given the same reply, one that is no transport failure,
    [get_recorded_webinars] returns what [get_courses] returns, and
    where [get_courses] raises it returns the error marker of that
    exception. *)
Theorem webinars_agree_with_get_courses :
  forall (self : Axcelerate) (r : reply) (a : get_courses_args),
    transport_failure r = false ->
    get_recorded_webinars self (fun _ => r)
    = match get_courses self (fun _ => r) a with
      | Return result => Return result
      | Raise e => Return (VList [error_marker e])
      end.
Proof.
  intros self r a Hr. destruct r as [t m|[st msg b]]; [discriminate|].
  unfold transport_failure in Hr. simpl in Hr.
  apply orb_false_iff in Hr. destruct Hr as [Hst Hb].
  destruct b as [description|v]; [discriminate|].
  unfold get_recorded_webinars.
  rewrite get_recorded_webinars_try_eq, get_courses_eq.
  rewrite !(fetch_Got (fun _ => Got (Response st msg (inr v))) _ st msg
              (inr v) eq_refl), Hst.
  destruct v; try reflexivity; cbn [bind py_iter]; rewrite course_loop;
    match goal with
    | |- context [first_non_dict ?l] => destruct (first_non_dict l)
    end; reflexivity.
Qed.

Lemma webinars_agree_with_get_courses_witness :
  get_recorded_webinars example_client
    (fun _ => Got (Response 200 "OK" (inr (VList [VInt 5]))))
  = match get_courses example_client
            (fun _ => Got (Response 200 "OK" (inr (VList [VInt 5]))))
            no_course_filter with
    | Return result => Return result
    | Raise e => Return (VList [error_marker e])
    end.
Proof.
  apply (webinars_agree_with_get_courses example_client
           (Got (Response 200 "OK" (inr (VList [VInt 5])))) no_course_filter).
  reflexivity.
Defined.

(** *** The enrolment loops on rows whose test succeeds *)

Lemma enrolment_loop_complete (key : string) (wanted : Z)
    (fields : list (string * string)) (items : list value) :
  Forall (fun e => exists b, row_matches key wanted e = Return b) items ->
  forall acc,
    for_each items (enrolment_step key wanted fields) acc
    = Return (acc ++ matching_records key wanted fields items).
Proof.
  induction 1 as [|e rest [b Hb] _ IH]; intros acc.
  - simpl. rewrite app_nil_r. reflexivity.
  - cbn [for_each]. unfold matching_records. cbn [flat_map].
    fold (matching_records key wanted fields rest).
    destruct e; try discriminate. rewrite Hb.
    unfold enrolment_step at 1. unfold row_matches in Hb.
    destruct (py_get (VDict d) key (VInt (-1))) as [raw|]; [|discriminate].
    cbn [bind] in Hb |- *.
    destruct (py_int raw) as [n|]; [|discriminate].
    cbn [bind] in Hb |- *. injection Hb as Hb. rewrite Hb.
    destruct b; cbn [negb].
    + rewrite dict_of_gets_dict. cbn [bind]. rewrite IH, <- app_assoc.
      reflexivity.
    + cbn [bind]. rewrite IH. reflexivity.
Qed.

(** X9: when the response is a list and the test on the contact id
    succeeds on every row (each row is a dict whose CONTACTID, or the
    default -1, [int] accepts), [get_student_enrollments] returns the
    records of all the rows that match and of no other, in the order of
    the response, and [enrolled] tells whether there is one. *)
Theorem student_enrollments_keep_all_matching_rows :
  forall (self : Axcelerate) (w : web) (contactID : Z)
         (st : Z) (msg : string) (items : list value),
    w (get_student_enrollments_request self contactID)
    = Got (Response st msg (inr (VList items))) ->
    (400 <=? st) && (st <? 600) = false ->
    Forall (fun e => exists b, row_matches "CONTACTID" contactID e = Return b)
      items ->
    get_student_enrollments self w contactID
    = Return (student_enrollments_result
                (matching_records "CONTACTID" contactID learner_fields items)).
Proof.
  intros self w contactID st msg items Hw Hst Hitems.
  rewrite get_student_enrollments_eq, (fetch_Got _ _ _ _ _ Hw), Hst.
  cbn [bind enrolments_of isinstance_list py_iter].
  rewrite (enrolment_loop_complete _ _ _ _ Hitems). reflexivity.
Qed.

Lemma student_enrollments_keep_all_matching_rows_witness :
  get_student_enrollments example_client (replies_with two_enrolments) 5
  = Return (student_enrollments_result
              (matching_records "CONTACTID" 5 learner_fields
                 [VDict [("CONTACTID", VStr "5"); ("NAME", VStr "Wardens")];
                  VDict [("CONTACTID", VInt 6)]])).
Proof.
  apply (student_enrollments_keep_all_matching_rows example_client
           (replies_with two_enrolments) 5 200 "OK").
  - reflexivity.
  - reflexivity.
  - repeat constructor; eexists; reflexivity.
Defined.

(** X10: when the response is a list and the test on the instance id
    succeeds on every row, [get_course_enrolments] returns the records of
    all the rows that match and of no other, in the order of the
    response. *)
Theorem course_enrolments_keep_all_matching_rows :
  forall (self : Axcelerate) (w : web) (instanceID : Z)
         (st : Z) (msg : string) (items : list value),
    w (get_course_enrolments_request self instanceID)
    = Got (Response st msg (inr (VList items))) ->
    (400 <=? st) && (st <? 600) = false ->
    Forall (fun e => exists b, row_matches "INSTANCEID" instanceID e = Return b)
      items ->
    get_course_enrolments self w instanceID
    = Return (VList (matching_records "INSTANCEID" instanceID student_fields
                       items)).
Proof.
  intros self w instanceID st msg items Hw Hst Hitems.
  rewrite get_course_enrolments_eq, (fetch_Got _ _ _ _ _ Hw), Hst.
  cbn [bind enrolments_of isinstance_list py_iter].
  rewrite (enrolment_loop_complete _ _ _ _ Hitems). reflexivity.
Qed.

Lemma course_enrolments_keep_all_matching_rows_witness :
  get_course_enrolments example_client
    (replies_with (VList [VDict [("INSTANCEID", VInt 8)];
                          VDict [("INSTANCEID", VStr "7")];
                          VDict [("INSTANCEID", VInt 7)]])) 7
  = Return (VList (matching_records "INSTANCEID" 7 student_fields
                     [VDict [("INSTANCEID", VInt 8)];
                      VDict [("INSTANCEID", VStr "7")];
                      VDict [("INSTANCEID", VInt 7)]])).
Proof.
  apply (course_enrolments_keep_all_matching_rows example_client
           (replies_with (VList [VDict [("INSTANCEID", VInt 8)];
                                 VDict [("INSTANCEID", VStr "7")];
                                 VDict [("INSTANCEID", VInt 7)]])) 7 200 "OK").
  - reflexivity.
  - reflexivity.
  - repeat constructor; eexists; reflexivity.
Defined.

(** A row without the id passes the test exactly when [-1] is asked
    for. *)
Lemma row_without_id_matches (key : string) (wanted : Z)
    (d : list (string * value)) :
  dict_lookup d key = None ->
  row_matches key wanted (VDict d) = Return (wanted =? -1).
Proof.
  intros Hd. unfold row_matches, py_get. rewrite Hd. cbn [bind py_int].
  rewrite Z.eqb_sym. reflexivity.
Qed.

Lemma records_without_id (key : string) (wanted : Z)
    (fields : list (string * string)) (items : list value) :
  Forall (fun e => exists d, e = VDict d /\ dict_lookup d key = None) items ->
  matching_records key wanted fields items
  = if wanted =? -1 then records_of fields items else [].
Proof.
  induction 1 as [|e rest (d & -> & Hd) _ IH].
  - destruct (wanted =? -1); reflexivity.
  - unfold matching_records, records_of. cbn [flat_map].
    fold (matching_records key wanted fields rest).
    fold (records_of fields rest).
    rewrite (row_without_id_matches key wanted d Hd), IH.
    destruct (wanted =? -1); reflexivity.
Qed.

(** X14: when the response is a list of rows none of which has a
    CONTACTID, [get_student_enrollments] keeps no row, unless the contact
    asked for is -1: then it keeps every row, and reports the learner as
    enrolled as soon as there is one. *)
Theorem rows_without_contact_id_match_only_minus_one :
  forall (self : Axcelerate) (w : web) (contactID : Z)
         (st : Z) (msg : string) (items : list value),
    w (get_student_enrollments_request self contactID)
    = Got (Response st msg (inr (VList items))) ->
    (400 <=? st) && (st <? 600) = false ->
    Forall (fun e => exists d, e = VDict d /\ dict_lookup d "CONTACTID" = None)
      items ->
    get_student_enrollments self w contactID
    = Return (student_enrollments_result
                (if contactID =? -1 then records_of learner_fields items
                 else [])).
Proof.
  intros self w contactID st msg items Hw Hst Hitems.
  rewrite get_student_enrollments_eq, (fetch_Got _ _ _ _ _ Hw), Hst.
  cbn [bind enrolments_of isinstance_list py_iter].
  rewrite enrolment_loop_complete.
  - rewrite (records_without_id _ _ _ _ Hitems). reflexivity.
  - clear Hw. induction Hitems as [|e rest (d & -> & Hd) _ IH];
      constructor; [|exact IH].
    eexists. exact (row_without_id_matches _ _ d Hd).
Qed.

Lemma rows_without_contact_id_match_only_minus_one_witness :
  get_student_enrollments example_client
    (replies_with (VList [VDict [("NAME", VStr "Wardens")]])) (-1)
  = Return (student_enrollments_result
              (if -1 =? -1
               then records_of learner_fields [VDict [("NAME", VStr "Wardens")]]
               else [])).
Proof.
  apply (rows_without_contact_id_match_only_minus_one example_client
           (replies_with (VList [VDict [("NAME", VStr "Wardens")]])) (-1)
           200 "OK").
  - reflexivity.
  - reflexivity.
  - repeat constructor. eexists. split; reflexivity.
Defined.

(** *** The keys of the records *)

Lemma keys_of_row_of (fields : list (string * string))
    (d : list (string * value)) :
  keys_of (row_of fields d) = Some (map fst fields).
Proof. unfold keys_of, row_of. rewrite map_map. reflexivity. Qed.

Lemma loop_keys (step : value -> list value -> outcome (list value))
    (R : value -> value -> Prop) (fields : list (string * string))
    (items rows : list value) :
  fields <> [] ->
  (forall e acc acc',
      step e acc = Return acc' ->
      acc' = acc \/ exists row, R e row /\ acc' = acc ++ [row]) ->
  (forall e row, R e row -> dict_of_gets fields e = Return row) ->
  for_each items step [] = Return rows ->
  Forall (fun row => keys_of row = Some (map fst fields)) rows.
Proof.
  intros Hne Hstep HR H.
  destruct (for_each_rows step R Hstep _ _ _ H) as (kept & rows' & -> & _ & HF).
  simpl. clear H. induction HF as [|e row kept' rows'' Hrow _ IH].
  - constructor.
  - constructor; [|exact IH].
    destruct (dict_of_gets_Return_inv fields e row Hne (HR _ _ Hrow))
      as (d & _ & ->).
    apply keys_of_row_of.
Qed.

(** X11: whatever the remote API answers, every record that a mapping
    operation returns has exactly the keys of its table, each once and
    in the order of the table; the only other row there can be is the
    error marker of [get_recorded_webinars]. *)
Theorem returned_records_have_the_keys_of_the_table :
  forall (self : Axcelerate) (w : web) (op : operation)
         (fields : list (string * string)) (result : value),
    mapping_fields op = Some fields ->
    run self w op = Return result ->
    exists rows,
      output_rows op result = Some rows /\
      (Forall (fun row => keys_of row = Some (map fst fields)) rows
       \/ (op = GetRecordedWebinars /\ exists e, rows = [error_marker e])).
Proof.
  intros self w op fields result Hf Hrun.
  destruct op; simpl in Hf; try discriminate; injection Hf as <-;
    simpl in Hrun.
  - rewrite search_users_eq in Hrun. apply guarded_Return_inv in Hrun.
    destruct Hrun as [->|(st & msg & v & _ & H)].
    + exists []. split; [reflexivity|]. left. constructor.
    + apply bind_Return_inv in H. destruct H as (its & _ & H).
      apply bind_Return_inv in H. destruct H as (rows & Hloop & H).
      injection H as <-. exists rows. split; [reflexivity|]. left.
      refine (loop_keys _ _ _ _ _ _ search_users_step_appends
                (fun _ _ Hr => Hr) Hloop). discriminate.
  - rewrite get_courses_eq in Hrun. apply guarded_Return_inv in Hrun.
    destruct Hrun as [->|(st & msg & v & _ & H)].
    + exists []. split; [reflexivity|]. left. constructor.
    + apply bind_Return_inv in H. destruct H as (its & _ & H).
      apply bind_Return_inv in H. destruct H as (rows & Hloop & H).
      injection H as <-. exists rows. split; [reflexivity|]. left.
      refine (loop_keys _ _ _ _ _ _ course_step_appends
                (fun _ _ Hr => Hr) Hloop). discriminate.
  - unfold get_recorded_webinars in Hrun.
    apply try_except_Return_inv in Hrun.
    destruct Hrun as [H|(e & _ & _ & H)].
    + rewrite get_recorded_webinars_try_eq in H.
      apply bind_Return_inv in H. destruct H as (v & _ & H).
      apply bind_Return_inv in H. destruct H as (its & _ & H).
      apply bind_Return_inv in H. destruct H as (rows & Hloop & H).
      injection H as <-. exists rows. split; [reflexivity|]. left.
      refine (loop_keys _ _ _ _ _ _ course_step_appends
                (fun _ _ Hr => Hr) Hloop). discriminate.
    + injection H as <-. exists [error_marker e]. split; [reflexivity|].
      right. split; [reflexivity|]. exists e. reflexivity.
  - rewrite get_student_enrollments_eq in Hrun.
    apply guarded_Return_inv in Hrun.
    destruct Hrun as [->|(st & msg & v & _ & H)].
    + exists []. split; [reflexivity|]. left. constructor.
    + apply bind_Return_inv in H. destruct H as (en & _ & H).
      apply bind_Return_inv in H. destruct H as (its & _ & H).
      apply bind_Return_inv in H. destruct H as (rows & Hloop & H).
      injection H as <-. exists rows. split; [reflexivity|]. left.
      refine (loop_keys _ _ _ _ _ _
                (enrolment_step_appends "CONTACTID" contactID learner_fields)
                (fun _ _ Hr => proj1 Hr) Hloop). discriminate.
  - rewrite get_course_enrolments_eq in Hrun.
    apply guarded_Return_inv in Hrun.
    destruct Hrun as [->|(st & msg & v & _ & H)].
    + exists []. split; [reflexivity|]. left. constructor.
    + apply bind_Return_inv in H. destruct H as (en & _ & H).
      apply bind_Return_inv in H. destruct H as (its & _ & H).
      apply bind_Return_inv in H. destruct H as (rows & Hloop & H).
      injection H as <-. exists rows. split; [reflexivity|]. left.
      refine (loop_keys _ _ _ _ _ _
                (enrolment_step_appends "INSTANCEID" instanceID student_fields)
                (fun _ _ Hr => proj1 Hr) Hloop). discriminate.
Qed.

Lemma returned_records_have_the_keys_of_the_table_witness :
  exists rows,
    output_rows (GetStudentEnrollments 5)
      (student_enrollments_result
         [row_of learner_fields
            [("CONTACTID", VStr "5"); ("NAME", VStr "Wardens")]])
    = Some rows /\
    (Forall (fun row => keys_of row = Some (map fst learner_fields)) rows
     \/ (GetStudentEnrollments 5 = GetRecordedWebinars /\
         exists e, rows = [error_marker e])).
Proof.
  apply (returned_records_have_the_keys_of_the_table example_client
           (replies_with (VDict [("data", two_enrolments)]))
           (GetStudentEnrollments 5) learner_fields);
    reflexivity.
Defined.

(** *** What the other requests carry *)




(** *** [int] on strings, at its edges *)

(** The separators 0x1c to 0x1f are no whitespace for [int]: a row whose
    id starts with one is not coerced, it makes the operation raise. *)
Example int_refuses_separator :
  py_int (VStr (String (ascii_of_nat 28) "5"))
  = Raise (Exn ValueError "invalid literal for int() with base 10: '\x1c5'")
  /\ get_student_enrollments example_client
       (replies_with
          (VList [VDict [("CONTACTID", VStr (String (ascii_of_nat 28) "5"))]])) 5
     = Raise (Exn ValueError "invalid literal for int() with base 10: '\x1c5'").
Proof. split; reflexivity. Qed.

(** Whitespace, a sign and single underscores are accepted. *)
Example int_accepts_padding :
  py_int (VStr (String (ascii_of_nat 9) "-1_000 ")) = Return (-1000)
  /\ py_int (VStr "1__0")
     = Raise (Exn ValueError "invalid literal for int() with base 10: '1__0'")
  /\ py_int (VStr "it's")
     = Raise (Exn ValueError
                (String.append "invalid literal for int() with base 10: "
                   (String (ascii_of_nat 34)
                      (String.append "it's"
                         (String (ascii_of_nat 34) EmptyString))))).
Proof. repeat split; reflexivity. Qed.
